(** * The OpenAI content generator of sepilot-cli

    A shallow embedding of [packages/core/src/core/openAIContentGenerator.ts]:
    the class [OpenAIContentGenerator] translates Gemini-style requests
    (contents made of turns and parts) into OpenAI chat-completion requests
    and translates completions and stream chunks back.

    Embedded here are [generateContent], [generateContentStream] and the
    private methods they call: [normalizeContents], [convertToOpenAIMessages],
    [convertPartsToOpenAI], [convertToOpenAITools], [convertToGeminiResponse]
    and [convertStreamChunkToGeminiResponse].  [countTokens] and
    [embedContent] are left out.

    What the class takes from its environment is a parameter: the built-ins
    [JSON.parse], [Math.random] and the rendering of numbers (record [Host]),
    and the OpenAI client (record [Client]).  [JSON.stringify] is written
    out, the rendering of numbers apart.

    Layout: JavaScript values and built-ins; the Gemini and OpenAI data
    types; the methods of the class; a fixed host and sample inputs, to run
    the methods; the notions the properties are stated with; the
    properties. *)

From Stdlib Require Import String Ascii List Bool Arith ZArith Lia.
From Stdlib Require Import PrimFloat FloatOps SpecFloat DecimalString.
Import ListNotations.
Local Open Scope string_scope.
Set Warnings "-register-all".

(** ** JavaScript values and built-ins *)

Module JS.

(** A JavaScript number is an IEEE-754 double. *)
Definition number : Type := float.

(** ToBoolean on numbers: [0], [-0] and [NaN] are falsy. *)
Definition number_truthy (n : number) : bool :=
  negb (PrimFloat.eqb n 0%float || PrimFloat.is_nan n).

(** ToBoolean on strings: only the empty string is falsy. *)
Definition string_truthy (s : string) : bool :=
  negb (s =? "").

(** A JSON value as the program holds it: the result of [JSON.parse], an
    argument of [JSON.stringify].  The fields of an object are listed in
    property enumeration order.  An absent value ([undefined]) is [None] of
    [option json] at the place that may lack it. *)
Inductive json : Type :=
| JNull
| JBool (b : bool)
| JNum (n : number)
| JStr (s : string)
| JArr (items : list json)
| JObj (fields : list (string * json)).

(** ToBoolean on a JSON value: objects and arrays are always truthy. *)
Definition json_truthy (j : json) : bool :=
  match j with
  | JNull => false
  | JBool b => b
  | JNum n => number_truthy n
  | JStr s => string_truthy s
  | JArr _ => true
  | JObj _ => true
  end.

(** [x ?? y]: the left operand unless it is [null] or [undefined]. *)
Definition nullish {A : Type} (x y : option A) : option A :=
  match x with
  | Some _ => x
  | None => y
  end.

(** [x ?? d] with a default that is always there. *)
Definition nullish_default {A : Type} (x : option A) (d : A) : A :=
  match x with
  | Some v => v
  | None => d
  end.

(** [s || d] on a possibly absent string. *)
Definition string_or (s : option string) (d : string) : string :=
  match s with
  | Some v => if string_truthy v then v else d
  | None => d
  end.

(** [n || d] on a number. *)
Definition number_or (n : number) (d : number) : number :=
  if number_truthy n then n else d.

(** [j || d] on a possibly absent JSON value. *)
Definition json_or (j : option json) (d : json) : json :=
  match j with
  | Some v => if json_truthy v then v else d
  | None => d
  end.

(** [l || d] on a possibly absent array: an array is truthy even when it is
    empty. *)
Definition array_or {A : Type} (l : option (list A)) (d : list A) : list A :=
  match l with
  | Some v => v
  | None => d
  end.

(** [o || d] on a possibly absent object: an object is truthy. *)
Definition object_or {A : Type} (o : option A) (d : A) : A :=
  match o with
  | Some v => v
  | None => d
  end.

(** A possibly absent string inside a template literal. *)
Definition interpolate (s : option string) : string :=
  match s with
  | Some v => v
  | None => "undefined"
  end.

(** [Array.prototype.join] on an array of strings. *)
Definition join (sep : string) (l : list string) : string :=
  String.concat sep l.

(** [String.prototype.substr(start, length)] for non-negative arguments. *)
Definition substr (start len : nat) (s : string) : string :=
  String.substring start len s.

(** *** JSON.stringify *)

Definition quotation_mark : ascii := ascii_of_nat 34.
Definition reverse_solidus : ascii := ascii_of_nat 92.

Definition hex_digit (n : nat) : ascii :=
  ascii_of_nat (if (n <? 10)%nat then 48 + n else 87 + n).

(** The escape of one character inside a JSON string. *)
Definition escape_char (c : ascii) : string :=
  let n := nat_of_ascii c in
  let esc (x : ascii) := String reverse_solidus (String x EmptyString) in
  if (n =? 34)%nat then esc quotation_mark
  else if (n =? 92)%nat then esc reverse_solidus
  else if (n =? 8)%nat then esc "b"%char
  else if (n =? 9)%nat then esc "t"%char
  else if (n =? 10)%nat then esc "n"%char
  else if (n =? 12)%nat then esc "f"%char
  else if (n =? 13)%nat then esc "r"%char
  else if (n <? 32)%nat then
    String reverse_solidus
      (String "u"%char (String "0"%char (String "0"%char
        (String (hex_digit (n / 16)) (String (hex_digit (n mod 16)) EmptyString)))))
  else String c EmptyString.

Fixpoint escape (s : string) : string :=
  match s with
  | EmptyString => EmptyString
  | String c rest => escape_char c ++ escape rest
  end.

Definition quote (s : string) : string :=
  String quotation_mark (escape s ++ String quotation_mark EmptyString).

Section Stringify.

(** [Number.prototype.toString()] belongs to the host. *)
Variable Number_toString : number -> string.

Definition stringify_number (n : number) : string :=
  if PrimFloat.is_nan n || PrimFloat.is_infinity n then "null"
  else Number_toString n.

Fixpoint stringify (j : json) : string :=
  match j with
  | JNull => "null"
  | JBool true => "true"
  | JBool false => "false"
  | JNum n => stringify_number n
  | JStr s => quote s
  | JArr items => "[" ++ join "," (map stringify items) ++ "]"
  | JObj fields =>
      "{" ++ join "," (map (fun kv => quote (fst kv) ++ ":" ++ stringify (snd kv)) fields)
          ++ "}"
  end.

(** [JSON.stringify(undefined)] is [undefined]. *)
Definition stringify_opt (j : option json) : option string :=
  option_map stringify j.

End Stringify.

(** What the methods take from the JavaScript host.  [Math_random k] is the
    value the [k]-th call of [Math.random()] returns (counting from the start
    of the run); [JSON_parse] is [None] where [JSON.parse] throws. *)
Record Host : Type := {
  Number_toString : number -> string;
  Number_toString36 : number -> string;
  JSON_parse : string -> option json;
  Math_random : nat -> number
}.

Definition JSON_stringify (host : Host) : json -> string :=
  stringify (Number_toString host).

Definition JSON_stringify_opt (host : Host) : option json -> option string :=
  stringify_opt (Number_toString host).

(** Exceptions a method can end with. *)
Inductive error : Type :=
| TypeError
| SyntaxError
| TransportError (reason : string).

Inductive result (A : Type) : Type :=
| Ok (a : A)
| Err (e : error).

Arguments Ok {A} a.
Arguments Err {A} e.

Definition bind {A B : Type} (r : result A) (k : A -> result B) : result B :=
  match r with
  | Ok a => k a
  | Err e => Err e
  end.

(** Code that calls [Math.random()]: the number of draws made so far is
    threaded through. *)
Definition Rand (A : Type) : Type := nat -> A * nat.

Definition ret {A : Type} (a : A) : Rand A := fun k => (a, k).

Definition rbind {A B : Type} (m : Rand A) (f : A -> Rand B) : Rand B :=
  fun k => let (a, k') := m k in f a k'.

Definition random (host : Host) : Rand number :=
  fun k => (Math_random host k, S k).

End JS.

Import JS.

Notation "x <- m ;; f" := (rbind m (fun x => f))
  (at level 61, m at next level, right associativity).

(** ** Gemini side: contents, parts, requests and responses *)

Module Gemini.

Record FunctionCall : Type := {
  fc_name : option string;
  fc_args : option json
}.

Record FunctionResponse : Type := {
  fr_name : option string;
  fr_response : option json
}.

Record Blob : Type := {
  mimeType : option string;
  data : option string
}.

(** The methods receive contents and parts at type [any], [Content] or
    [Part] and tell them apart by [typeof] and [in].  A value is a string or
    an object seen through the six properties the methods read; [None] is a
    property the object lacks.  Properties hold values of their declared
    types; a [text] that is present but [undefined] reads as the empty
    string everywhere ([part.text || '']), so it is not told apart from it. *)
Inductive value : Type :=
| VString (s : string)
| VObject (role : option string) (parts : option (list value))
          (text : option string) (inlineData : option Blob)
          (functionCall : option FunctionCall)
          (functionResponse : option FunctionResponse).

Definition role_of (v : value) : option string :=
  match v with
  | VString _ => None
  | VObject r _ _ _ _ _ => r
  end.

Definition parts_of (v : value) : option (list value) :=
  match v with
  | VString _ => None
  | VObject _ ps _ _ _ _ => ps
  end.

Definition text_of (v : value) : option string :=
  match v with
  | VString _ => None
  | VObject _ _ t _ _ _ => t
  end.

Definition inlineData_of (v : value) : option Blob :=
  match v with
  | VString _ => None
  | VObject _ _ _ b _ _ => b
  end.

Definition functionCall_of (v : value) : option FunctionCall :=
  match v with
  | VString _ => None
  | VObject _ _ _ _ fc _ => fc
  end.

Definition functionResponse_of (v : value) : option FunctionResponse :=
  match v with
  | VString _ => None
  | VObject _ _ _ _ _ fr => fr
  end.

(** Object literals of the shapes the Gemini types name. *)
Definition Content (role : string) (parts : list value) : value :=
  VObject (Some role) (Some parts) None None None None.

Definition TextPart (t : string) : value :=
  VObject None None (Some t) None None None.

Definition InlineDataPart (b : Blob) : value :=
  VObject None None None (Some b) None None.

Definition FunctionCallPart (fc : FunctionCall) : value :=
  VObject None None None None (Some fc) None.

Definition FunctionResponsePart (fr : FunctionResponse) : value :=
  VObject None None None None None (Some fr).

(** [request.contents]: an array, or a single string, part or content. *)
Inductive ContentListUnion : Type :=
| ContentArray (l : list value)
| ContentSingle (v : value).

Record GenerateContentConfig : Type := {
  temperature : option number;
  topP : option number;
  maxOutputTokens : option number;
  systemInstruction : option string;
  responseMimeType : option string;
  responseJsonSchema : option json
}.

(** The object [{}] that stands in for a missing [request.config]. *)
Definition empty_config : GenerateContentConfig :=
  {| temperature := None; topP := None; maxOutputTokens := None;
     systemInstruction := None; responseMimeType := None;
     responseJsonSchema := None |}.

(** The legacy [request.generationConfig]. *)
Record GenerationConfig : Type := {
  gc_temperature : option number;
  gc_topP : option number;
  gc_maxOutputTokens : option number
}.

Record FunctionDeclaration : Type := {
  fd_name : option string;
  fd_description : option string;
  fd_parameters : option json
}.

Record Tool : Type := {
  functionDeclarations : option (list FunctionDeclaration)
}.

Record GenerateContentParameters : Type := {
  contents : ContentListUnion;
  config : option GenerateContentConfig;
  generationConfig : option GenerationConfig;
  tools : option (list Tool)
}.

Record UsageMetadata : Type := {
  promptTokenCount : number;
  candidatesTokenCount : number;
  totalTokenCount : number
}.

Record Candidate : Type := {
  content : value;
  index : nat
}.

(** [response_text] is the [text] helper the generator adds. *)
Record GenerateContentResponse : Type := {
  candidates : list Candidate;
  usageMetadata : option UsageMetadata;
  response_text : string
}.

End Gemini.

(** ** OpenAI side: chat-completion requests, completions and chunks *)

Module OpenAI.

Inductive ChatCompletionContentPart : Type :=
| ContentPartText (text : string)
| ContentPartImage (url : string).

Definition is_text_part (p : ChatCompletionContentPart) : bool :=
  match p with
  | ContentPartText _ => true
  | ContentPartImage _ => false
  end.

(** [(p as any).text] *)
Definition part_text (p : ChatCompletionContentPart) : string :=
  match p with
  | ContentPartText t => t
  | ContentPartImage _ => ""
  end.

Inductive UserContent : Type :=
| UserString (s : string)
| UserParts (l : list ChatCompletionContentPart).

Record ToolCallFunction : Type := {
  fn_name : string;
  fn_arguments : option string
}.

(** A tool call has a [function] property or is of another kind. *)
Inductive ChatCompletionMessageToolCall : Type :=
| FunctionToolCall (id : string) (function : ToolCallFunction)
| CustomToolCall (id : string).

Definition tool_call_id_of (c : ChatCompletionMessageToolCall) : string :=
  match c with
  | FunctionToolCall id _ => id
  | CustomToolCall id => id
  end.

Inductive ChatCompletionMessageParam : Type :=
| SystemMessage (content : string)
| UserMessage (content : UserContent)
| AssistantMessage (content : option string)
                   (tool_calls : option (list ChatCompletionMessageToolCall))
| ToolMessage (content : option string) (tool_call_id : string).

Record ChatCompletionTool : Type := {
  tool_name : option string;
  tool_description : option string;
  tool_parameters : json
}.

(** [{ type: 'json_object' }] *)
Inductive ResponseFormat : Type :=
| json_object.

Record ChatCompletionCreateParams : Type := {
  model : string;
  messages : list ChatCompletionMessageParam;
  tools : option (list ChatCompletionTool);
  temperature : number;
  top_p : number;
  max_tokens : option number;
  response_format : option ResponseFormat;
  stream : bool
}.

Record ChatCompletionMessage : Type := {
  content : option string;
  tool_calls : option (list ChatCompletionMessageToolCall)
}.

Record Choice : Type := {
  message : ChatCompletionMessage
}.

Record CompletionUsage : Type := {
  prompt_tokens : number;
  completion_tokens : number;
  total_tokens : number
}.

Record ChatCompletion : Type := {
  choices : list Choice;
  usage : option CompletionUsage
}.

Record ChoiceDeltaFunction : Type := {
  delta_name : option string;
  delta_arguments : option string
}.

Record ChoiceDeltaToolCall : Type := {
  delta_index : nat;
  delta_function : option ChoiceDeltaFunction
}.

Record ChoiceDelta : Type := {
  delta_content : option string;
  delta_tool_calls : option (list ChoiceDeltaToolCall)
}.

Record ChunkChoice : Type := {
  delta : option ChoiceDelta
}.

Record ChatCompletionChunk : Type := {
  chunk_choices : list ChunkChoice
}.

(** [openai.chat.completions.create], without and with [stream: true]; a
    rejected promise is [Err]. *)
Record Client : Type := {
  create : ChatCompletionCreateParams -> result ChatCompletion;
  create_stream : ChatCompletionCreateParams -> result (list ChatCompletionChunk)
}.

End OpenAI.

Import Gemini.
Import OpenAI.

(** The fields of the class. *)
Record OpenAIContentGenerator : Type := {
  openai : OpenAI.Client;
  model : string;
  embeddingModel : string
}.

(** ** The methods of [OpenAIContentGenerator] *)

(** The string ['\n']. *)
Definition newline : string := String (ascii_of_nat 10) EmptyString.

Section Methods.

Variable host : Host.
Variable this : OpenAIContentGenerator.

(** *** normalizeContents *)

(** [v && typeof v === 'object' && 'role' in v] *)
Definition exposes_role (v : value) : bool :=
  match v with
  | VString _ => false
  | VObject (Some _) _ _ _ _ _ => true
  | VObject None _ _ _ _ _ => false
  end.

(** The same test on [contents[0]], which is [undefined] in an empty array. *)
Definition first_exposes_role (contents : list value) : bool :=
  match nth_error contents 0 with
  | Some first => exposes_role first
  | None => false
  end.

Definition normalizeContents (contents : ContentListUnion) : list value :=
  match contents with
  | ContentArray l =>
      if (length l =? 0)%nat || first_exposes_role l then l
      else [Content "user" l]
  | ContentSingle (VString s) => [Content "user" [TextPart s]]
  | ContentSingle v => [Content "user" [v]]
  end.

(** *** convertPartsToOpenAI *)

(** What one part pushes on [contentParts]. *)
Definition convertPart (part : value) : list ChatCompletionContentPart :=
  match part with
  | VString s => [ContentPartText s]
  | VObject _ _ (Some t) _ _ _ => [ContentPartText (string_or (Some t) "")]
  | VObject _ _ None (Some b) _ _ =>
      [ContentPartImage
         ("data:" ++ interpolate (mimeType b) ++ ";base64," ++ interpolate (data b))]
  | VObject _ _ None None _ _ => []
  end.

Definition convertPartsToOpenAI (parts : list value) : UserContent :=
  let contentParts := flat_map convertPart parts in
  if forallb is_text_part contentParts
  then UserString (join newline (map part_text contentParts))
  else UserParts contentParts.

(** *** convertToOpenAIMessages *)

(** [`call_${Math.random().toString(36).substr(2, 9)}`] *)
Definition new_call_id : Rand string :=
  r <- random host ;;
  ret ("call_" ++ substr 2 9 (Number_toString36 host r)).

(** The loop over the parts of a model turn: the arrays [textParts] and
    [toolCalls] it fills, in push order. *)
Fixpoint model_parts (parts : list value)
  : Rand (list string * list ChatCompletionMessageToolCall) :=
  match parts with
  | [] => ret ([], [])
  | part :: rest =>
      match part with
      | VString s =>
          acc <- model_parts rest ;;
          ret (s :: fst acc, snd acc)
      | VObject _ _ (Some t) _ _ _ =>
          acc <- model_parts rest ;;
          ret (string_or (Some t) "" :: fst acc, snd acc)
      | VObject _ _ None _ (Some call) _ =>
          id <- new_call_id ;;
          acc <- model_parts rest ;;
          ret (fst acc,
               FunctionToolCall id
                 {| fn_name := string_or (fc_name call) "";
                    fn_arguments := JSON_stringify_opt host (fc_args call) |}
               :: snd acc)
      | VObject _ _ None _ None _ => model_parts rest
      end
  end.

(** The branch [content.role === 'model']. *)
Definition assistantMessage (content : value) : Rand ChatCompletionMessageParam :=
  match parts_of content with
  | Some parts =>
      acc <- model_parts parts ;;
      let textParts := fst acc in
      let toolCalls := snd acc in
      ret (AssistantMessage
             (if (0 <? length textParts)%nat then Some (join newline textParts)
              else if (length toolCalls =? 0)%nat then Some ""
              else None)
             (if (0 <? length toolCalls)%nat then Some toolCalls else None))
  | None => ret (AssistantMessage None None)
  end.

(** What one part of a function turn pushes on [messages]. *)
Definition toolMessage (part : value) : list ChatCompletionMessageParam :=
  match functionResponse_of part with
  | Some fr =>
      [ToolMessage (JSON_stringify_opt host (fr_response fr))
                   (string_or (fr_name fr) "")]
  | None => []
  end.

(** The branch [content.role === 'function']. *)
Definition toolMessages (content : value) : list ChatCompletionMessageParam :=
  match parts_of content with
  | Some parts => flat_map toolMessage parts
  | None => []
  end.

(** [content.role === r] *)
Definition role_is (content : value) (r : string) : bool :=
  match role_of content with
  | Some x => x =? r
  | None => false
  end.

(** What one element of [contents] pushes on [messages]. *)
Definition contentMessages (content : value) : Rand (list ChatCompletionMessageParam) :=
  if role_is content "user" then
    ret [UserMessage (convertPartsToOpenAI (array_or (parts_of content) []))]
  else if role_is content "model" then
    m <- assistantMessage content ;;
    ret [m]
  else if role_is content "function" then
    ret (toolMessages content)
  else ret [].

Fixpoint convertToOpenAIMessages (contents : list value)
  : Rand (list ChatCompletionMessageParam) :=
  match contents with
  | [] => ret []
  | content :: rest =>
      ms <- contentMessages content ;;
      more <- convertToOpenAIMessages rest ;;
      ret (ms ++ more)%list
  end.

(** *** convertToOpenAITools *)

Definition convertToOpenAITools (tools : option (list Tool)) : list ChatCompletionTool :=
  match tools with
  | None => []
  | Some ts =>
      if (length ts =? 0)%nat then []
      else
      flat_map
        (fun tool =>
           match functionDeclarations tool with
           | Some decls =>
               map (fun func =>
                      {| tool_name := fd_name func;
                         tool_description := fd_description func;
                         tool_parameters := json_or (fd_parameters func) (JObj []) |})
                   decls
           | None => []
           end)
        ts
  end.

(** *** The request of generateContent and of generateContentStream *)

(** The content of the system message that carries the schema. *)
Definition schemaInstruction (schema : json) : string :=
  "You must respond with valid JSON that conforms to this schema: "
  ++ JSON_stringify host schema
  ++ ". Return ONLY the JSON object, no additional text.".

(** The schema when
    [config.responseMimeType === 'application/json' && config.responseJsonSchema]
    holds. *)
Definition jsonSchema (config : GenerateContentConfig) : option json :=
  match responseMimeType config, responseJsonSchema config with
  | Some m, Some schema =>
      if (m =? "application/json") && json_truthy schema then Some schema else None
  | _, _ => None
  end.

(** The instruction when [config.systemInstruction] is truthy. *)
Definition instruction (config : GenerateContentConfig) : option string :=
  match systemInstruction config with
  | Some s => if string_truthy s then Some s else None
  | None => None
  end.

(** [request.generationConfig?.f] *)
Definition legacy {A : Type} (request : GenerateContentParameters)
  (f : GenerationConfig -> option A) : option A :=
  match generationConfig request with
  | Some g => f g
  | None => None
  end.

(** The argument [generateContent] passes to [chat.completions.create]. *)
Definition generateContent_params (request : GenerateContentParameters)
  : Rand ChatCompletionCreateParams :=
  let contents := normalizeContents (contents request) in
  let config := object_or (config request) empty_config in
  messages <- convertToOpenAIMessages contents ;;
  let (messages, responseFormat) :=
    match jsonSchema config with
    | Some schema =>
        (SystemMessage (schemaInstruction schema) :: messages, Some json_object)
    | None => (messages, None)
    end in
  let messages :=
    match instruction config with
    | Some text => SystemMessage text :: messages
    | None => messages
    end in
  let tools := convertToOpenAITools (Gemini.tools request) in
  ret {| OpenAI.model := model this;
         OpenAI.messages := messages;
         OpenAI.tools := if (0 <? length tools)%nat then Some tools else None;
         OpenAI.temperature :=
           nullish_default
             (nullish (Gemini.temperature config) (legacy request gc_temperature))
             0%float;
         OpenAI.top_p :=
           nullish_default (nullish (topP config) (legacy request gc_topP)) 1%float;
         OpenAI.max_tokens :=
           nullish (maxOutputTokens config) (legacy request gc_maxOutputTokens);
         OpenAI.response_format := responseFormat;
         OpenAI.stream := false |}.

(** The argument [generateContentStream] passes to [chat.completions.create]. *)
Definition generateContentStream_params (request : GenerateContentParameters)
  : Rand ChatCompletionCreateParams :=
  let contents := normalizeContents (contents request) in
  let config := object_or (config request) empty_config in
  messages <- convertToOpenAIMessages contents ;;
  let (messages, responseFormat) :=
    match jsonSchema config with
    | Some schema =>
        (SystemMessage (schemaInstruction schema) :: messages, Some json_object)
    | None => (messages, None)
    end in
  let messages :=
    match instruction config with
    | Some text => SystemMessage text :: messages
    | None => messages
    end in
  let tools := convertToOpenAITools (Gemini.tools request) in
  ret {| OpenAI.model := model this;
         OpenAI.messages := messages;
         OpenAI.tools := if (0 <? length tools)%nat then Some tools else None;
         OpenAI.temperature :=
           nullish_default
             (nullish (Gemini.temperature config) (legacy request gc_temperature))
             0%float;
         OpenAI.top_p :=
           nullish_default (nullish (topP config) (legacy request gc_topP)) 1%float;
         OpenAI.max_tokens :=
           nullish (maxOutputTokens config) (legacy request gc_maxOutputTokens);
         OpenAI.response_format := responseFormat;
         OpenAI.stream := true |}.

(** *** convertToGeminiResponse *)

(** The loop over [choice.message.tool_calls]: the parts it pushes.  A call
    without a [function] property pushes nothing; [JSON.parse] throwing a
    [SyntaxError] ends the method. *)
Fixpoint functionCallParts (calls : list ChatCompletionMessageToolCall)
  : result (list value) :=
  match calls with
  | [] => Ok []
  | FunctionToolCall _ f :: rest =>
      match JSON_parse host (string_or (fn_arguments f) "{}") with
      | Some args =>
          bind (functionCallParts rest) (fun more =>
          Ok (FunctionCallPart {| fc_name := Some (fn_name f); fc_args := Some args |}
              :: more))
      | None => Err SyntaxError
      end
  | CustomToolCall _ :: rest => functionCallParts rest
  end.

(** The loop that picks [textContent]: the text of the first part that has
    a truthy [text]. *)
Fixpoint textContent (parts : list value) : string :=
  match parts with
  | [] => ""
  | VObject _ _ (Some t) _ _ _ :: rest =>
      if string_truthy t then t else textContent rest
  | _ :: rest => textContent rest
  end.

(** [if (x) parts.push({ text: x })] *)
Definition textPartOf (x : option string) : list value :=
  match x with
  | Some c => if string_truthy c then [TextPart c] else []
  | None => []
  end.

(** [completion.usage?.f || 0] *)
Definition usageCount (completion : ChatCompletion) (f : CompletionUsage -> number)
  : number :=
  match usage completion with
  | Some u => number_or (f u) 0%float
  | None => 0%float
  end.

(** Reading [choice.message] of an [undefined] choice is a [TypeError].  The
    diagnostic written under [process.env.DEBUG] leaves the result alone and
    is not modelled. *)
Definition convertToGeminiResponse (completion : ChatCompletion)
  : result GenerateContentResponse :=
  match nth_error (choices completion) 0 with
  | None => Err TypeError
  | Some choice =>
      bind
        (match OpenAI.tool_calls (message choice) with
         | Some calls => functionCallParts calls
         | None => Ok []
         end)
        (fun callParts =>
           let parts := (textPartOf (OpenAI.content (message choice)) ++ callParts)%list in
           Ok {| candidates :=
                   [{| Gemini.content := Content "model" parts; index := 0 |}];
                 usageMetadata :=
                   Some {| promptTokenCount := usageCount completion prompt_tokens;
                           candidatesTokenCount := usageCount completion completion_tokens;
                           totalTokenCount := usageCount completion total_tokens |};
                 response_text := textContent parts |})
  end.

(** *** convertStreamChunkToGeminiResponse *)

(** [toolCall.function?.name] when it is truthy. *)
Definition deltaName (toolCall : ChoiceDeltaToolCall) : option string :=
  match delta_function toolCall with
  | Some f =>
      match delta_name f with
      | Some name => if string_truthy name then Some name else None
      | None => None
      end
  | None => None
  end.

(** [toolCall.function.arguments ? JSON.parse(toolCall.function.arguments) : {}] *)
Definition deltaArguments (toolCall : ChoiceDeltaToolCall) : result json :=
  match delta_function toolCall with
  | Some f =>
      match delta_arguments f with
      | Some a =>
          if string_truthy a then
            match JSON_parse host a with
            | Some args => Ok args
            | None => Err SyntaxError
            end
          else Ok (JObj [])
      | None => Ok (JObj [])
      end
  | None => Ok (JObj [])
  end.

(** The loop over [choice.delta.tool_calls]. *)
Fixpoint deltaFunctionCallParts (calls : list ChoiceDeltaToolCall)
  : result (list value) :=
  match calls with
  | [] => Ok []
  | toolCall :: rest =>
      match deltaName toolCall with
      | Some name =>
          bind (deltaArguments toolCall) (fun args =>
          bind (deltaFunctionCallParts rest) (fun more =>
          Ok (FunctionCallPart {| fc_name := Some name; fc_args := Some args |}
              :: more)))
      | None => deltaFunctionCallParts rest
      end
  end.

(** [chunk.choices[0]?.delta] *)
Definition firstDelta (chunk : ChatCompletionChunk) : option ChoiceDelta :=
  match nth_error (chunk_choices chunk) 0 with
  | Some choice => delta choice
  | None => None
  end.

(** The log written under [process.env.DEBUG_OPENAI] is not modelled. *)
Definition convertStreamChunkToGeminiResponse (chunk : ChatCompletionChunk)
  : result GenerateContentResponse :=
  let d := firstDelta chunk in
  bind
    (match d with
     | Some d' =>
         match delta_tool_calls d' with
         | Some calls => deltaFunctionCallParts calls
         | None => Ok []
         end
     | None => Ok []
     end)
    (fun callParts =>
       let parts :=
         (textPartOf (match d with Some d' => delta_content d' | None => None end)
          ++ callParts)%list in
       Ok {| candidates :=
               [{| Gemini.content := Content "model" parts; index := 0 |}];
             usageMetadata := None;
             response_text := textContent parts |}).

(** *** generateContent and generateContentStream *)

Definition generateContent (request : GenerateContentParameters)
  : Rand (result GenerateContentResponse) :=
  params <- generateContent_params request ;;
  ret (bind (create (openai this) params) convertToGeminiResponse).

(** What the async generator yields over a stream of chunks, and the
    exception it ends with if a chunk fails to convert. *)
Fixpoint yielded (stream : list ChatCompletionChunk)
  : list GenerateContentResponse * option error :=
  match stream with
  | [] => ([], None)
  | chunk :: rest =>
      match convertStreamChunkToGeminiResponse chunk with
      | Ok response =>
          let (responses, e) := yielded rest in (response :: responses, e)
      | Err e => ([], Some e)
      end
  end.

Definition generateContentStream (request : GenerateContentParameters)
  : Rand (result (list GenerateContentResponse * option error)) :=
  params <- generateContentStream_params request ;;
  ret (bind (create_stream (openai this) params) (fun stream => Ok (yielded stream))).

End Methods.

(** ** countTokens, embedContent and extractTextFromContent *)

(** The argument and the result of [countTokens], as far as it reads and
    writes them. *)
Record CountTokensParameters : Type := {
  count_contents : ContentListUnion
}.

Record CountTokensResponse : Type := {
  totalTokens : nat
}.

(** [embedContent] reads [request.contents || request.content]. *)
Record EmbedContentParameters : Type := {
  embed_contents : option ContentListUnion;
  embed_content : option ContentListUnion
}.

Record ContentEmbedding : Type := {
  values : list number
}.

Record EmbedContentResponse : Type := {
  embeddings : list ContentEmbedding
}.

(** [openai.embeddings.create]: its argument and its answer. *)
Record EmbeddingCreateParams : Type := {
  embedding_model : string;
  embedding_input : string
}.

Record Embedding : Type := {
  embedding : list number
}.

Record CreateEmbeddingResponse : Type := {
  embedding_data : list Embedding
}.

Section Counting.

(** [encode] of [gpt-tokenizer]: the token ids of a text. *)
Variable encode : string -> list nat.

(** What one part adds to [totalTokens]. *)
Definition partTokens (part : value) : nat :=
  match part with
  | VString s => length (encode s)
  | VObject _ _ (Some t) _ _ _ =>
      if string_truthy t then length (encode t) else 0
  | VObject _ _ None _ _ _ => 0
  end.

(** The inner loop, over the parts of one content. *)
Definition countParts (parts : list value) (totalTokens : nat) : nat :=
  fold_left (fun total part => total + partTokens part) parts totalTokens.

(** The outer loop, over the contents. *)
Definition countContents (contents : list value) (totalTokens : nat) : nat :=
  fold_left
    (fun total content =>
       match parts_of content with
       | Some parts => countParts parts total
       | None => total
       end)
    contents totalTokens.

Definition countTokens (request : CountTokensParameters) : CountTokensResponse :=
  let contents := normalizeContents (count_contents request) in
  {| totalTokens := countContents contents 0 |}.

End Counting.

(** *** extractTextFromContent *)

Fixpoint extractTextFromContent (content : value) : string :=
  match content with
  | VString s => s
  | VObject _ (Some parts) _ _ _ _ =>
      join " " (filter string_truthy (map extractTextFromContent parts))
  | VObject _ None (Some t) _ _ _ => string_or (Some t) ""
  | VObject _ None None _ _ _ => ""
  end.

(** ToBoolean of what [request.contents] can hold: only the empty string is
    falsy. *)
Definition union_truthy (c : ContentListUnion) : bool :=
  match c with
  | ContentArray _ => true
  | ContentSingle (VString s) => string_truthy s
  | ContentSingle (VObject _ _ _ _ _ _) => true
  end.

(** [request.contents || request.content] *)
Definition embedArgument (request : EmbedContentParameters) : option ContentListUnion :=
  match embed_contents request with
  | Some c => if union_truthy c then Some c else embed_content request
  | None => embed_content request
  end.

(** [extractTextFromContent] on what [embedContent] hands it: on
    [undefined] the test ['parts' in content] is a [TypeError]; an array is
    no string and has neither a [parts] nor a [text] property. *)
Definition extractTextFromArgument (argument : option ContentListUnion)
  : result string :=
  match argument with
  | None => Err TypeError
  | Some (ContentArray _) => Ok ""
  | Some (ContentSingle v) => Ok (extractTextFromContent v)
  end.

Section Embedding.

Variable this : OpenAIContentGenerator.

(** [this.openai.embeddings.create]; a rejected promise is [Err]. *)
Variable embeddings_create : EmbeddingCreateParams -> result CreateEmbeddingResponse.

(** Reading [embedding] of [response.data[0]] when [data] is empty is a
    [TypeError]. *)
Definition embedContent (request : EmbedContentParameters)
  : result EmbedContentResponse :=
  bind (extractTextFromArgument (embedArgument request)) (fun text =>
  bind (embeddings_create
          {| embedding_model := embeddingModel this; embedding_input := text |})
       (fun response =>
  match nth_error (embedding_data response) 0 with
  | Some first => Ok {| embeddings := [{| values := embedding first |}] |}
  | None => Err TypeError
  end)).

End Embedding.

(** ** A fixed host, to run the methods on concrete inputs *)

Module Fixture.

Definition decimal (z : Z) : string := NilZero.string_of_int (Z.to_int z).

(** The integer a double holds, if it holds one. *)
Definition integral (x : number) : option Z :=
  match Prim2SF x with
  | S754_zero _ => Some 0%Z
  | S754_finite s m e =>
      let sign := if s then (-1)%Z else 1%Z in
      if (0 <=? e)%Z then Some (sign * Zpos m * 2 ^ e)%Z
      else if (Zpos m mod 2 ^ (- e) =? 0)%Z then Some (sign * (Zpos m / 2 ^ (- e)))%Z
      else None
  | S754_infinity _ => None
  | S754_nan => None
  end.

(** Decimal rendering of the integral doubles; the inputs below hold no
    other number. *)
Definition Number_toString (x : number) : string :=
  match integral x with
  | Some z => decimal z
  | None => "NaN"
  end.

Definition digit36 (d : Z) : ascii :=
  ascii_of_nat (Z.to_nat (if (d <? 10)%Z then 48 + d else 87 + d)).

(** The base-36 digits of [num / den], a fraction below one. *)
Fixpoint fraction36 (digits : nat) (num den : Z) : string :=
  match digits with
  | O => ""
  | S digits' =>
      if (num =? 0)%Z then ""
      else
        let d := (36 * num / den)%Z in
        String (digit36 d) (fraction36 digits' (36 * num - d * den)%Z den)
  end.

(** Base-36 rendering of a double in [0, 1), as [Math.random()] returns
    them, exact up to eleven fractional digits. *)
Definition Number_toString36 (x : number) : string :=
  match Prim2SF x with
  | S754_finite false m e =>
      if (e <? 0)%Z && (Zpos m <? 2 ^ (- e))%Z
      then "0." ++ fraction36 11 (Zpos m) (2 ^ (- e))%Z
      else "NaN"
  | S754_zero _ => "0"
  | _ => "NaN"
  end.

(** The texts this host's [JSON.parse] accepts; on the arguments strings
    of the samples below it does what [JSON.parse] does. *)
Definition JSON_parse (s : string) : option json :=
  if s =? "{}" then Some (JObj [])
  else if s =? "[]" then Some (JArr [])
  else if s =? "null" then Some JNull
  else if s =? "true" then Some (JBool true)
  else if s =? "false" then Some (JBool false)
  else if s =? "{" ++ quote "city" ++ ":" ++ quote "Paris" ++ "}"
       then Some (JObj [("city", JStr "Paris")])
  else None.

(** A generator whose draws are 1/2, 1/4, 1/8, ... *)
Fixpoint halving (k : nat) : number :=
  match k with
  | O => 0.5%float
  | S k' => PrimFloat.mul (halving k') 0.5%float
  end.

Definition host : Host :=
  {| JS.Number_toString := Number_toString;
     JS.Number_toString36 := Number_toString36;
     JS.JSON_parse := JSON_parse;
     JS.Math_random := halving |}.

(** Two neighbouring doubles near 1/10: their base-36 renderings agree on
    the first ten fractional digits. *)
Definition near_draws (k : nat) : number :=
  match k with
  | O => 0x1.999999999999ap-4%float
  | S _ => 0x1.999999999999bp-4%float
  end.

(** The same host with a generator that draws these two numbers. *)
Definition near_host : Host :=
  {| JS.Number_toString := Number_toString;
     JS.Number_toString36 := Number_toString36;
     JS.JSON_parse := JSON_parse;
     JS.Math_random := near_draws |}.

(** A client that answers every request with the same completion. *)
Definition client (completion : ChatCompletion) : Client :=
  {| create := fun _ => Ok completion;
     create_stream := fun _ => Ok [] |}.

Definition generator (completion : ChatCompletion) : OpenAIContentGenerator :=
  {| openai := client completion;
     model := "gpt-4o";
     embeddingModel := "text-embedding-3-small" |}.

Definition request (contents : ContentListUnion) (config : GenerateContentConfig)
  : GenerateContentParameters :=
  {| Gemini.contents := contents;
     Gemini.config := Some config;
     generationConfig := None;
     Gemini.tools := None |}.

(** *** Sample completions and chunks *)

Definition text_choice (s : string) : Choice :=
  {| message := {| OpenAI.content := Some s; OpenAI.tool_calls := None |} |}.

Definition call_choice (name : string) (arguments : option string) : Choice :=
  {| message :=
       {| OpenAI.content := None;
          OpenAI.tool_calls :=
            Some [FunctionToolCall "call_1"
                    {| fn_name := name; fn_arguments := arguments |}] |} |}.

(** A plain answer without [usage]. *)
Definition greeting : ChatCompletion :=
  {| choices := [text_choice "Hi"]; usage := None |}.

(** A tool call whose arguments are cut short. *)
Definition cut_short : ChatCompletion :=
  {| choices := [call_choice "lookup" (Some "{city")]; usage := None |}.

(** A tool call without arguments. *)
Definition bare_call : ChatCompletion :=
  {| choices := [call_choice "lookup" None]; usage := None |}.

(** Two choices; the cut-short tool call is in the second one. *)
Definition two_choices : ChatCompletion :=
  {| choices := [text_choice "done"; call_choice "lookup" (Some "{city")];
     usage := None |}.

Definition tool_delta (name arguments : option string) : ChoiceDeltaToolCall :=
  {| delta_index := 0;
     delta_function := Some {| delta_name := name; delta_arguments := arguments |} |}.

(** A chunk that opens a call and one that continues its arguments. *)
Definition opening_chunk : ChatCompletionChunk :=
  {| chunk_choices :=
       [{| delta :=
             Some {| delta_content := None;
                     delta_tool_calls := Some [tool_delta (Some "lookup") (Some "")] |} |}] |}.

Definition continuation_chunk : ChatCompletionChunk :=
  {| chunk_choices :=
       [{| delta :=
             Some {| delta_content := None;
                     delta_tool_calls := Some [tool_delta None (Some "{city")] |} |}] |}.

(** The chunk that closes a stream with usage only: no choice at all. *)
Definition empty_chunk : ChatCompletionChunk :=
  {| chunk_choices := [] |}.

(** *** Sample requests *)

Definition object_schema : json := JObj [("type", JStr "object")].

(** JSON output under a schema, with a system instruction. *)
Definition json_config (instruction : option string) : GenerateContentConfig :=
  {| Gemini.temperature := None; topP := None; maxOutputTokens := None;
     systemInstruction := instruction;
     responseMimeType := Some "application/json";
     responseJsonSchema := Some object_schema |}.

Definition hello (config : GenerateContentConfig) : GenerateContentParameters :=
  request (ContentSingle (VString "Hello")) config.

Definition lookup_call : value :=
  FunctionCallPart {| fc_name := Some "lookup"; fc_args := Some (JObj []) |}.

(** A model turn that calls the same function twice. *)
Definition two_calls : value := Content "model" [lookup_call; lookup_call].

(** A model turn that has no [parts] property. *)
Definition model_without_parts : value :=
  VObject (Some "model") None None None None None.

(** A request whose config sets the temperature to 0; its generation config
    sets 1/2 for the temperature and 1/4 for [top_p]. *)
Definition cold_request : GenerateContentParameters :=
  {| Gemini.contents := ContentSingle (VString "Hello");
     Gemini.config :=
       Some {| Gemini.temperature := Some 0%float; topP := None;
               maxOutputTokens := None; systemInstruction := None;
               responseMimeType := None; responseJsonSchema := None |};
     generationConfig :=
       Some {| gc_temperature := Some 0.5%float; gc_topP := Some 0.25%float;
               gc_maxOutputTokens := None |};
     Gemini.tools := None |}.

(** A function turn: two function responses around a text part. *)
Definition function_parts : list value :=
  [FunctionResponsePart
     {| fr_name := Some "lookup";
        fr_response := Some (JObj [("city", JStr "Paris")]) |};
   TextPart "done";
   FunctionResponsePart {| fr_name := Some "ping"; fr_response := Some JNull |}].

Definition function_turn : value := Content "function" function_parts.

End Fixture.

(** *** Further sample inputs *)

Module Samples.

(** A model turn that speaks and makes three calls: with empty arguments,
    with a city, and without name or arguments. *)
Definition spoken_calls : list value :=
  [TextPart "Checking";
   Fixture.lookup_call;
   FunctionCallPart
     {| fc_name := Some "weather";
        fc_args := Some (JObj [("city", JStr "Paris")]) |};
   FunctionCallPart {| fc_name := None; fc_args := None |}].

(** A tokenizer that makes one token of every character. *)
Definition encode (s : string) : list nat :=
  map nat_of_ascii (list_ascii_of_string s).

(** An embeddings service: one vector for the empty input, two for any
    other. *)
Definition embeddings_create (params : EmbeddingCreateParams)
  : result CreateEmbeddingResponse :=
  if embedding_input params =? ""
  then Ok {| embedding_data := [{| embedding := [0%float] |}] |}
  else Ok {| embedding_data :=
               [{| embedding := [1%float; 0.5%float] |};
                {| embedding := [2%float] |}] |}.

(** A content nested two levels deep. *)
Definition nested : value :=
  Content "user"
    [TextPart "a";
     VObject None (Some [TextPart ""; VString "b"; Fixture.lookup_call])
             (Some "ignored") None None None;
     TextPart "";
     TextPart "c"].

(** A chunk whose delta names a call and carries cut-short arguments. *)
Definition failing_chunk : ChatCompletionChunk :=
  {| chunk_choices :=
       [{| delta :=
             Some {| delta_content := None;
                     delta_tool_calls :=
                       Some [Fixture.tool_delta (Some "lookup") (Some "{city")] |} |}] |}.


End Samples.

(** ** Notions the properties are stated with *)

(** The parts of a response: those of the content of its first candidate. *)
Definition response_parts (response : GenerateContentResponse) : list value :=
  match candidates response with
  | c :: _ => array_or (parts_of (Gemini.content c)) []
  | [] => []
  end.

Definition response_role (response : GenerateContentResponse) : option string :=
  match candidates response with
  | c :: _ => role_of (Gemini.content c)
  | [] => None
  end.

(** A Text part: a bare string, or an object with a [text] property. *)
Definition is_text (part : value) : bool :=
  match part with
  | VString _ => true
  | VObject _ _ (Some _) _ _ _ => true
  | VObject _ _ None _ _ _ => false
  end.

Definition text_value (part : value) : string :=
  match part with
  | VString s => s
  | VObject _ _ (Some t) _ _ _ => t
  | VObject _ _ None _ _ _ => ""
  end.

(** The texts of the Text parts, in order. *)
Definition texts (parts : list value) : list string :=
  map text_value (filter is_text parts).

(** The value of the first Text part, or the empty string. *)
Definition first_text (parts : list value) : string :=
  match filter is_text parts with
  | part :: _ => text_value part
  | [] => ""
  end.

(** A FunctionCall part: no Text part, and [functionCall] is populated. *)
Definition is_call (part : value) : bool :=
  negb (is_text part)
  && match functionCall_of part with Some _ => true | None => false end.

Definition call_value (part : value) : FunctionCall :=
  nullish_default (functionCall_of part) {| fc_name := None; fc_args := None |}.

Definition calls (parts : list value) : list FunctionCall :=
  map call_value (filter is_call parts).

(** A FunctionResponse part: [functionResponse] is populated. *)
Definition is_response (part : value) : bool :=
  match functionResponse_of part with Some _ => true | None => false end.

Definition response_value (part : value) : FunctionResponse :=
  nullish_default (functionResponse_of part) {| fr_name := None; fr_response := None |}.

Definition responses (parts : list value) : list FunctionResponse :=
  map response_value (filter is_response parts).

(** The content and the tool calls of an assistant message. *)
Definition assistant_content (m : ChatCompletionMessageParam) : option string :=
  match m with
  | AssistantMessage c _ => c
  | _ => None
  end.

Definition assistant_tool_calls (m : ChatCompletionMessageParam)
  : list ChatCompletionMessageToolCall :=
  match m with
  | AssistantMessage _ (Some tcs) => tcs
  | _ => []
  end.

(** The identifier made from draw number [k]. *)
Definition call_id_at (host : Host) (k : nat) : string :=
  "call_" ++ substr 2 9 (Number_toString36 host (Math_random host k)).

(** The tool call made from a FunctionCall under a given identifier. *)
Definition tool_call_of (host : Host) (id : string) (call : FunctionCall)
  : ChatCompletionMessageToolCall :=
  FunctionToolCall id
    {| fn_name := nullish_default (fc_name call) "";
       fn_arguments := JSON_stringify_opt host (fc_args call) |}.

(** The tool calls made from a list of FunctionCalls when the first
    identifier comes from draw number [k]. *)
Fixpoint numbered_calls (host : Host) (k : nat) (cs : list FunctionCall)
  : list ChatCompletionMessageToolCall :=
  match cs with
  | [] => []
  | c :: rest => tool_call_of host (call_id_at host k) c :: numbered_calls host (S k) rest
  end.

(** The tool message made from a FunctionResponse. *)
Definition tool_message_of (host : Host) (r : FunctionResponse)
  : ChatCompletionMessageParam :=
  ToolMessage (JSON_stringify_opt host (fr_response r))
              (nullish_default (fr_name r) "").

(** The nine-character fragment of draw number [k]. *)
Definition fragment_at (host : Host) (k : nat) : string :=
  substr 2 9 (Number_toString36 host (Math_random host k)).

(** The tool-call deltas the stream converter loops over, and those among
    them that carry a non-empty function name. *)
Definition chunk_deltas (chunk : ChatCompletionChunk) : list ChoiceDeltaToolCall :=
  match firstDelta chunk with
  | Some d => array_or (delta_tool_calls d) []
  | None => []
  end.

(** A chunk whose first choice carries a delta with the given content and
    tool-call deltas. *)
Definition chunk_with (content : option string) (deltas : list ChoiceDeltaToolCall)
  (others : list ChunkChoice) : ChatCompletionChunk :=
  {| chunk_choices :=
       {| delta := Some {| delta_content := content; delta_tool_calls := Some deltas |} |}
       :: others |}.

Definition named (toolCall : ChoiceDeltaToolCall) : bool :=
  match delta_function toolCall with
  | Some f =>
      match delta_name f with
      | Some n => negb (n =? "")
      | None => false
      end
  | None => false
  end.

(** The function name a delta carries, for those that are [named]. *)
Definition delta_name_value (toolCall : ChoiceDeltaToolCall) : string :=
  match delta_function toolCall with
  | Some f => nullish_default (delta_name f) ""
  | None => ""
  end.

(** The tool calls the response converter loops over: those of the first
    choice. *)
Definition first_choice_calls (completion : ChatCompletion)
  : list ChatCompletionMessageToolCall :=
  match choices completion with
  | choice :: _ => array_or (OpenAI.tool_calls (message choice)) []
  | [] => []
  end.

(** Every tool call of the completion, over all its choices. *)
Definition all_calls (completion : ChatCompletion)
  : list ChatCompletionMessageToolCall :=
  flat_map (fun choice => array_or (OpenAI.tool_calls (message choice)) [])
           (choices completion).

(** An arguments string that is present, non-empty and rejected by
    [JSON.parse]. *)
Definition malformed (host : Host) (a : option string) : Prop :=
  exists s, a = Some s /\ s <> "" /\ JSON_parse host s = None.

(** An arguments string that is absent, empty, or accepted by [JSON.parse]. *)
Definition well_formed (host : Host) (a : option string) : Prop :=
  a = None \/ a = Some "" \/ exists s j, a = Some s /\ JSON_parse host s = Some j.

(** The request each of the two entry points hands to the client. *)
Definition requests_built (host : Host) (this : OpenAIContentGenerator)
  (request : GenerateContentParameters) (k : nat) : list ChatCompletionCreateParams :=
  [fst (generateContent_params host this request k);
   fst (generateContentStream_params host this request k)].

(** The messages translated from the turns of a request. *)
Definition translated (host : Host) (request : GenerateContentParameters) (k : nat)
  : list ChatCompletionMessageParam :=
  fst (convertToOpenAIMessages host (normalizeContents (contents request)) k).

Definition config_of (request : GenerateContentParameters) : GenerateContentConfig :=
  object_or (config request) empty_config.

Definition legacy_of {A : Type} (request : GenerateContentParameters)
  (f : GenerationConfig -> option A) : option A :=
  match generationConfig request with
  | Some g => f g
  | None => None
  end.

(** The per-request value if present, else the legacy one if present, else
    the fixed default. *)
Definition chosen {A : Type} (explicit old : option A) (fixed : A) : A :=
  match explicit, old with
  | Some v, _ => v
  | None, Some v => v
  | None, None => fixed
  end.

(** The same without a default: unset when neither is present. *)
Definition chosen_or_unset {A : Type} (explicit old : option A) : option A :=
  match explicit, old with
  | Some v, _ => Some v
  | None, o => o
  end.

(** The config asks for JSON under [schema]: the MIME type is exactly
    [application/json] and the schema is a truthy value. *)
Definition json_requested (config : GenerateContentConfig) (schema : json) : Prop :=
  responseMimeType config = Some "application/json"
  /\ responseJsonSchema config = Some schema
  /\ json_truthy schema = true.

(** The config carries the non-empty system instruction [text]. *)
Definition instructed (config : GenerateContentConfig) (text : string) : Prop :=
  systemInstruction config = Some text /\ text <> "".

Definition not_instructed (config : GenerateContentConfig) : Prop :=
  systemInstruction config = None \/ systemInstruction config = Some "".

(** The text of the system message that carries [schema]. *)
Definition schema_text (host : Host) (schema : json) : string :=
  "You must respond with valid JSON that conforms to this schema: "
  ++ JSON_stringify host schema
  ++ ". Return ONLY the JSON object, no additional text.".

(** The system messages put in front of the translated turns. *)
Definition prefix_of (host : Host) (config : GenerateContentConfig)
  : list ChatCompletionMessageParam :=
  (match instruction config with
   | Some text => [SystemMessage text]
   | None => []
   end
   ++ match jsonSchema config with
      | Some schema => [SystemMessage (schema_text host schema)]
      | None => []
      end)%list.

(** ** Further notions *)

(** A role that [convertToOpenAIMessages] translates. *)
Definition translated_role (content : value) : bool :=
  role_is content "user" || role_is content "model" || role_is content "function".

(** The random numbers drawn for one element of [contents]: one per
    FunctionCall part of a model turn. *)
Definition drawn_for (content : value) : nat :=
  if role_is content "user" then 0
  else if role_is content "model" then length (calls (array_or (parts_of content) []))
  else 0.

Definition drawn (contents : list value) : nat :=
  list_sum (map drawn_for contents).

Definition is_system (m : ChatCompletionMessageParam) : bool :=
  match m with
  | SystemMessage _ => true
  | _ => false
  end.

(** An inline-data part: no [text], and [inlineData] is populated. *)
Definition is_image (part : value) : bool :=
  match part with
  | VObject _ _ None (Some _) _ _ => true
  | _ => false
  end.

Definition is_image_block (b : ChatCompletionContentPart) : bool :=
  negb (is_text_part b).


(** A request with its [stream] flag set. *)
Definition with_stream (p : ChatCompletionCreateParams) (flag : bool)
  : ChatCompletionCreateParams :=
  {| OpenAI.model := OpenAI.model p;
     OpenAI.messages := OpenAI.messages p;
     OpenAI.tools := OpenAI.tools p;
     OpenAI.temperature := OpenAI.temperature p;
     OpenAI.top_p := OpenAI.top_p p;
     OpenAI.max_tokens := OpenAI.max_tokens p;
     OpenAI.response_format := OpenAI.response_format p;
     OpenAI.stream := flag |}.

(** The [tool_call_id] of a tool message. *)
Definition tool_message_id (m : ChatCompletionMessageParam) : option string :=
  match m with
  | ToolMessage _ id => Some id
  | _ => None
  end.

(** The texts [countTokens] encodes: every bare string, and every non-empty
    [text], among the parts of the contents that have parts. *)
Definition counted_text (part : value) : list string :=
  match part with
  | VString s => [s]
  | VObject _ _ (Some t) _ _ _ => if t =? "" then [] else [t]
  | VObject _ _ None _ _ _ => []
  end.

Definition counted_texts (contents : list value) : list string :=
  flat_map (fun content => flat_map counted_text (array_or (parts_of content) []))
           contents.

(** The text leaves of a value, in order: what is left of it when every
    nesting through [parts] is flattened. *)
Fixpoint leaves (v : value) : list string :=
  match v with
  | VString s => [s]
  | VObject _ (Some parts) _ _ _ _ => flat_map leaves parts
  | VObject _ None (Some t) _ _ _ => [t]
  | VObject _ None None _ _ _ => []
  end.

(** A chunk that carries text only. *)
Definition text_chunk (s : string) : ChatCompletionChunk :=
  {| chunk_choices :=
       [{| delta := Some {| delta_content := Some s; delta_tool_calls := None |} |}] |}.

(** The completion that echoes an assistant message. *)
Definition echo (m : ChatCompletionMessageParam) (u : option CompletionUsage)
  : ChatCompletion :=
  {| choices :=
       [{| message :=
             {| OpenAI.content := assistant_content m;
                OpenAI.tool_calls :=
                  match m with
                  | AssistantMessage _ tcs => tcs
                  | _ => None
                  end |} |}];
     usage := u |}.

(** The parts a model turn comes back as. *)
Definition echoed_calls (cs : list FunctionCall) : list value :=
  map (fun c =>
         FunctionCallPart
           {| fc_name := Some (nullish_default (fc_name c) "");
              fc_args := Some (nullish_default (fc_args c) (JObj [])) |})
      cs.

(** A list the normalizer takes for a list of turns. *)
Definition turn_list (l : list value) : Prop :=
  l = [] \/ first_exposes_role l = true.

(** The text [embedContent] extracts from a value: its non-empty leaves,
    joined by single spaces. *)
Definition flat_text (v : value) : string :=
  join " " (filter string_truthy (leaves v)).

(** The text [embedContent] sends, if it gets as far as sending one: read
    from [contents] unless that is absent or the empty string, and then from
    [content]; an array gives the empty text. *)
Definition text_of_union (c : ContentListUnion) : string :=
  match c with
  | ContentArray _ => ""
  | ContentSingle v => flat_text v
  end.

Definition embedded_text (request : EmbedContentParameters) : option string :=
  match embed_contents request with
  | Some (ContentSingle (VString "")) => option_map text_of_union (embed_content request)
  | Some c => Some (text_of_union c)
  | None => option_map text_of_union (embed_content request)
  end.




(** Induction on values, through the nesting of [parts]. *)
Fixpoint value_nested_ind (P : value -> Prop)
  (Hstring : forall s, P (VString s))
  (Hleaf : forall r t i fc fr, P (VObject r None t i fc fr))
  (Hparts : forall r parts t i fc fr,
      Forall P parts -> P (VObject r (Some parts) t i fc fr))
  (v : value) {struct v} : P v :=
  match v with
  | VString s => Hstring s
  | VObject r None t i fc fr => Hleaf r t i fc fr
  | VObject r (Some parts) t i fc fr =>
      Hparts r parts t i fc fr
        ((fix all (l : list value) : Forall P l :=
            match l with
            | [] => Forall_nil P
            | x :: rest =>
                Forall_cons x (value_nested_ind P Hstring Hleaf Hparts x) (all rest)
            end) parts)
  end.

(** ** Properties of normalizeContents *)

(** An array that is empty, or whose first element has a [role], is
    returned as it is. *)
Lemma normalizeContents_identity (l : list value) :
  l = [] \/ (exists first rest r, l = first :: rest /\ role_of first = Some r) ->
  normalizeContents (ContentArray l) = l.
Proof.
  intros [-> | (first & rest & r & -> & Hr)].
  - reflexivity.
  - unfold normalizeContents, first_exposes_role. cbn.
    destruct first as [s | [r' |] ps t i fc fr]; cbn in Hr; try discriminate.
    reflexivity.
Qed.

(** A non-empty array whose first element has no [role] becomes the parts
    of one user turn. *)
Lemma normalizeContents_wrap (first : value) (rest : list value) :
  role_of first = None ->
  normalizeContents (ContentArray (first :: rest)) = [Content "user" (first :: rest)].
Proof.
  intros Hr. unfold normalizeContents, first_exposes_role. cbn.
  destruct first as [s | [r' |] ps t i fc fr]; cbn in Hr; try discriminate;
    reflexivity.
Qed.

(** C3, as stated, fails on the empty array: it is returned unchanged, not
    wrapped in a user turn. *)
Lemma normalizeContents_empty_not_wrapped :
  normalizeContents (ContentArray []) = []
  /\ normalizeContents (ContentArray []) <> [Content "user" []].
Proof.
  split.
  - reflexivity.
  - cbn. discriminate.
Qed.

(** C3 (amended): the Content Normalizer returns an array unchanged when it
    is empty or its first element exposes a [role]; every other array
    becomes a single user turn whose parts are the array. *)
Theorem normalizeContents_array (l : list value) :
  (l = [] \/ (exists first rest r, l = first :: rest /\ role_of first = Some r) ->
   normalizeContents (ContentArray l) = l)
  /\ (forall first rest, l = first :: rest -> role_of first = None ->
      normalizeContents (ContentArray l) = [Content "user" l]).
Proof.
  split.
  - apply normalizeContents_identity.
  - intros first rest -> Hr. now apply normalizeContents_wrap.
Qed.

(** The amended C3 on a list of two turns and on a list of two parts. *)
Lemma normalizeContents_array_witness :
  normalizeContents
    (ContentArray [Content "user" [TextPart "hi"]; Content "model" [TextPart "ok"]])
  = [Content "user" [TextPart "hi"]; Content "model" [TextPart "ok"]]
  /\ normalizeContents (ContentArray [TextPart "a"; VString "b"])
     = [Content "user" [TextPart "a"; VString "b"]].
Proof.
  split.
  - apply (proj1 (normalizeContents_array _)). right.
    exists (Content "user" [TextPart "hi"]), [Content "model" [TextPart "ok"]], "user".
    split; reflexivity.
  - apply (proj2 (normalizeContents_array _) (TextPart "a") [VString "b"]);
      reflexivity.
Defined.

(** ** Properties of the response converters *)

Section Responses.

Variable host : Host.

Lemma string_or_truthy (s d : string) :
  s <> "" -> string_or (Some s) d = s.
Proof.
  intros Hs. unfold string_or, string_truthy.
  destruct (String.eqb_spec s ""); [contradiction | reflexivity].
Qed.

Lemma string_truthy_true (s : string) :
  string_truthy s = true <-> s <> "".
Proof.
  unfold string_truthy. destruct (String.eqb_spec s ""); cbn; split;
    congruence.
Qed.

(** [textContent] finds nothing among parts that carry no text. *)
Lemma textContent_no_text (parts : list value) :
  Forall (fun p => is_text p = false) parts -> textContent parts = "".
Proof.
  induction 1 as [| p ps Hp _ IH]; cbn.
  - reflexivity.
  - destruct p as [s | r q [t |] i fc fr]; cbn in Hp; try discriminate; exact IH.
Qed.

Lemma filter_no_text (parts : list value) :
  Forall (fun p => is_text p = false) parts -> filter is_text parts = [].
Proof.
  induction 1 as [| p ps Hp _ IH]; cbn.
  - reflexivity.
  - rewrite Hp. exact IH.
Qed.

(** After the optional text part come call parts only, so the text the
    converters pick is that of the first Text part. *)
Lemma textContent_first_text (x : option string) (callParts : list value) :
  Forall (fun p => is_text p = false) callParts ->
  textContent (textPartOf x ++ callParts) = first_text (textPartOf x ++ callParts).
Proof.
  intros Hc. unfold first_text, textPartOf.
  destruct x as [c |]; [destruct (string_truthy c) eqn:Hc' |]; cbn.
  - rewrite Hc'. reflexivity.
  - rewrite (filter_no_text _ Hc). now apply textContent_no_text.
  - rewrite (filter_no_text _ Hc). now apply textContent_no_text.
Qed.

Lemma functionCallParts_calls (tcs : list ChatCompletionMessageToolCall)
  (parts : list value) :
  functionCallParts host tcs = Ok parts ->
  Forall (fun p => is_text p = false) parts.
Proof.
  revert parts. induction tcs as [| [id f | id] rest IH]; cbn; intros parts H.
  - injection H as <-. constructor.
  - destruct (JSON_parse host _) as [args |]; [| discriminate].
    destruct (functionCallParts host rest) as [more | e]; cbn in H; [| discriminate].
    injection H as <-. constructor; [reflexivity | now apply IH].
  - now apply IH.
Qed.

(** What a successful conversion of a completion looks like. *)
Lemma convertToGeminiResponse_ok (completion : ChatCompletion)
  (response : GenerateContentResponse) :
  convertToGeminiResponse host completion = Ok response ->
  exists choice others callParts,
    choices completion = choice :: others
    /\ Forall (fun p => is_text p = false) callParts
    /\ response =
       {| candidates :=
            [{| Gemini.content :=
                  Content "model"
                    (textPartOf (OpenAI.content (message choice)) ++ callParts);
                index := 0 |}];
          usageMetadata :=
            Some {| promptTokenCount := usageCount completion prompt_tokens;
                    candidatesTokenCount := usageCount completion completion_tokens;
                    totalTokenCount := usageCount completion total_tokens |};
          response_text :=
            textContent (textPartOf (OpenAI.content (message choice)) ++ callParts) |}.
Proof.
  unfold convertToGeminiResponse. intros H.
  destruct (choices completion) as [| choice others] eqn:Hch; cbn in H;
    [discriminate |].
  destruct (OpenAI.tool_calls (message choice)) as [tcs |] eqn:Htc.
  - destruct (functionCallParts host tcs) as [callParts | e] eqn:Hp; cbn in H;
      [| discriminate].
    injection H as <-. exists choice, others, callParts.
    repeat split. now apply functionCallParts_calls with tcs.
  - cbn in H. injection H as <-. exists choice, others, [].
    repeat split. constructor.
Qed.

(** A malformed arguments string among the calls stops the loop. *)
Lemma functionCallParts_malformed (tcs : list ChatCompletionMessageToolCall)
  (id : string) (f : ToolCallFunction) :
  In (FunctionToolCall id f) tcs ->
  malformed host (fn_arguments f) ->
  functionCallParts host tcs = Err SyntaxError.
Proof.
  intros Hin (s & Hs & Hne & Hparse).
  induction tcs as [| [id' f' | id'] rest IH]; cbn.
  - destruct Hin.
  - destruct Hin as [Heq | Hin].
    + injection Heq as -> ->. rewrite Hs, (string_or_truthy _ _ Hne), Hparse.
      reflexivity.
    + destruct (JSON_parse host (string_or (fn_arguments f') "{}"));
        [| reflexivity].
      rewrite (IH Hin). reflexivity.
  - destruct Hin as [Heq | Hin]; [discriminate | now apply IH].
Qed.

(** Well-formed arguments strings let the loop run to its end. *)
Lemma functionCallParts_well_formed (tcs : list ChatCompletionMessageToolCall) :
  JSON_parse host "{}" = Some (JObj []) ->
  (forall id f, In (FunctionToolCall id f) tcs -> well_formed host (fn_arguments f)) ->
  exists parts, functionCallParts host tcs = Ok parts.
Proof.
  intros Hempty. induction tcs as [| [id f | id] rest IH]; cbn; intros Hall.
  - now exists [].
  - destruct IH as [more Hmore].
    { intros id' f' Hin. apply (Hall id' f'). now right. }
    rewrite Hmore. cbn.
    destruct (Hall id f (or_introl eq_refl)) as [Ha | [Ha | (s & j & Ha & Hj)]];
      rewrite Ha.
    + cbn. rewrite Hempty. eauto.
    + cbn. rewrite Hempty. eauto.
    + unfold string_or. destruct (string_truthy s).
      * rewrite Hj. eauto.
      * rewrite Hempty. eauto.
  - apply IH. intros id' f' Hin. apply (Hall id' f'). now right.
Qed.

Lemma convertToGeminiResponse_malformed (completion : ChatCompletion)
  (id : string) (f : ToolCallFunction) :
  In (FunctionToolCall id f) (first_choice_calls completion) ->
  malformed host (fn_arguments f) ->
  convertToGeminiResponse host completion = Err SyntaxError.
Proof.
  unfold first_choice_calls, convertToGeminiResponse. intros Hin Hbad.
  destruct (choices completion) as [| choice others]; [destruct Hin |]. cbn.
  destruct (OpenAI.tool_calls (message choice)) as [tcs |]; [| destruct Hin].
  cbn in Hin. rewrite (functionCallParts_malformed _ _ _ Hin Hbad). reflexivity.
Qed.

Lemma convertToGeminiResponse_well_formed (completion : ChatCompletion) :
  JSON_parse host "{}" = Some (JObj []) ->
  (forall id f, In (FunctionToolCall id f) (first_choice_calls completion) ->
                well_formed host (fn_arguments f)) ->
  convertToGeminiResponse host completion <> Err SyntaxError
  /\ (choices completion <> [] ->
      exists response, convertToGeminiResponse host completion = Ok response).
Proof.
  unfold first_choice_calls, convertToGeminiResponse. intros Hempty Hall.
  destruct (choices completion) as [| choice others]; cbn.
  - split; [discriminate | congruence].
  - destruct (OpenAI.tool_calls (message choice)) as [tcs |]; cbn in *.
    + destruct (functionCallParts_well_formed tcs Hempty Hall) as [parts ->]. cbn.
      split; [discriminate | eauto].
    + split; [discriminate | eauto].
Qed.

End Responses.

(** C8: when the completion has no [usage], the assembled response counts
    zero prompt, completion and total tokens; and the [text] of every
    assembled response is the value of the first Text part of its parts, or
    the empty string when it has none.  A response is assembled whenever the
    completion has a choice whose function tool calls carry arguments that
    parse (or none). *)
Theorem convertToGeminiResponse_usage_and_text (host : Host)
  (completion : ChatCompletion) :
  (forall response,
      convertToGeminiResponse host completion = Ok response ->
      (usage completion = None ->
       usageMetadata response =
         Some {| promptTokenCount := 0%float; candidatesTokenCount := 0%float;
                 totalTokenCount := 0%float |})
      /\ response_text response = first_text (response_parts response))
  /\ (JSON_parse host "{}" = Some (JObj []) ->
      choices completion <> [] ->
      (forall id f,
          In (FunctionToolCall id f) (first_choice_calls completion) ->
          well_formed host (fn_arguments f)) ->
      exists response, convertToGeminiResponse host completion = Ok response).
Proof.
  split.
  - intros response H.
    destruct (convertToGeminiResponse_ok host _ _ H)
      as (choice & others & callParts & _ & Hcalls & ->).
    split.
    + intros Hu. cbn. unfold usageCount. rewrite Hu. reflexivity.
    + cbn. now apply textContent_first_text.
  - intros Hempty Hchoice Hall.
    now apply (convertToGeminiResponse_well_formed host completion Hempty Hall).
Qed.

(** C8 on a plain answer that comes without [usage]. *)
Lemma convertToGeminiResponse_usage_and_text_witness :
  exists response,
    convertToGeminiResponse Fixture.host Fixture.greeting = Ok response
    /\ usageMetadata response =
       Some {| promptTokenCount := 0%float; candidatesTokenCount := 0%float;
               totalTokenCount := 0%float |}
    /\ response_text response = first_text (response_parts response)
    /\ response_text response = "Hi".
Proof.
  destruct (convertToGeminiResponse_usage_and_text Fixture.host Fixture.greeting)
    as [Hright Hreturns].
  destruct Hreturns as [response Hresponse].
  - reflexivity.
  - discriminate.
  - intros id f [].
  - exists response. split; [exact Hresponse |].
    destruct (Hright response Hresponse) as [Hu Ht].
    split; [exact (Hu eq_refl) |]. split; [exact Ht |].
    vm_compute in Hresponse. injection Hresponse as <-. reflexivity.
Defined.

(** C5, as stated, fails when the malformed call sits in a choice other
    than the first: the completion contains it and a response is assembled
    all the same. *)
Lemma malformed_call_outside_first_choice :
  (exists id f,
      In (FunctionToolCall id f) (all_calls Fixture.two_choices)
      /\ malformed Fixture.host (fn_arguments f))
  /\ exists response,
      convertToGeminiResponse Fixture.host Fixture.two_choices = Ok response.
Proof.
  split.
  - exists "call_1", {| fn_name := "lookup"; fn_arguments := Some "{city" |}.
    split.
    + cbn. now left.
    + exists "{city". repeat split. discriminate.
  - eexists. reflexivity.
Qed.

(** C5 (amended): a function tool call of the first choice (the only choice
    the Response Assembler reads) whose arguments string is present,
    non-empty and not valid JSON makes the assembler raise the parse error,
    which [generateContent] passes on in place of a response; when the
    arguments strings of the function tool calls of the first choice are all
    valid JSON, empty or absent, no parse error is raised, and a response is
    returned whenever the completion has a choice. *)
Theorem malformed_arguments_raise (host : Host) :
  JSON_parse host "{}" = Some (JObj []) ->
  (forall completion id f,
      In (FunctionToolCall id f) (first_choice_calls completion) ->
      malformed host (fn_arguments f) ->
      convertToGeminiResponse host completion = Err SyntaxError
      /\ forall this request k,
          create (openai this) (fst (generateContent_params host this request k))
          = Ok completion ->
          fst (generateContent host this request k) = Err SyntaxError)
  /\ (forall completion,
        (forall id f,
            In (FunctionToolCall id f) (first_choice_calls completion) ->
            well_formed host (fn_arguments f)) ->
        convertToGeminiResponse host completion <> Err SyntaxError
        /\ (choices completion <> [] ->
            exists response, convertToGeminiResponse host completion = Ok response)).
Proof.
  intros Hempty. split.
  - intros completion id f Hin Hbad.
    pose proof (convertToGeminiResponse_malformed host _ _ _ Hin Hbad) as Hraise.
    split; [exact Hraise |].
    intros this request k Hcreate. unfold generateContent, rbind, ret.
    destruct (generateContent_params host this request k) as [params k'].
    cbn in *. rewrite Hcreate. exact Hraise.
  - intros completion Hall. now apply convertToGeminiResponse_well_formed.
Qed.

(** The amended C5 on a cut-short arguments string and on a call without
    arguments. *)
Lemma malformed_arguments_raise_witness :
  fst (generateContent Fixture.host (Fixture.generator Fixture.cut_short)
         (Fixture.request (ContentSingle (VString "Hello")) empty_config) 0)
  = Err SyntaxError
  /\ exists response,
      convertToGeminiResponse Fixture.host Fixture.bare_call = Ok response.
Proof.
  pose proof (malformed_arguments_raise Fixture.host eq_refl) as [Hbad Hgood].
  split.
  - assert (Hcut : malformed Fixture.host (Some "{city")).
    { exists "{city". repeat split. discriminate. }
    apply (proj2 (Hbad Fixture.cut_short "call_1"
                    {| fn_name := "lookup"; fn_arguments := Some "{city" |}
                    (or_introl eq_refl) Hcut)).
    reflexivity.
  - apply (Hgood Fixture.bare_call).
    + intros id f Hin. cbn in Hin. destruct Hin as [Heq | []].
      injection Heq as <- <-. now left.
    + discriminate.
Defined.

(** ** Properties of the stream converter *)

(** C10: on a chunk whose [choices] is empty the Streaming Response
    Assembler returns a response of role [model] with no parts and the empty
    text; the non-streaming assembler fails on a completion without
    choices. *)
Theorem convertStreamChunk_empty_choices (host : Host) (chunk : ChatCompletionChunk) :
  chunk_choices chunk = [] ->
  convertStreamChunkToGeminiResponse host chunk
  = Ok {| candidates := [{| Gemini.content := Content "model" []; index := 0 |}];
          usageMetadata := None;
          response_text := "" |}
  /\ forall completion,
      choices completion = [] ->
      convertToGeminiResponse host completion = Err TypeError.
Proof.
  intros Hempty. split.
  - unfold convertStreamChunkToGeminiResponse, firstDelta. rewrite Hempty.
    reflexivity.
  - intros completion Hnone. unfold convertToGeminiResponse. rewrite Hnone.
    reflexivity.
Qed.

Lemma convertStreamChunk_empty_choices_witness :
  convertStreamChunkToGeminiResponse Fixture.host Fixture.empty_chunk
  = Ok {| candidates := [{| Gemini.content := Content "model" []; index := 0 |}];
          usageMetadata := None;
          response_text := "" |}.
Proof.
  exact (proj1 (convertStreamChunk_empty_choices Fixture.host Fixture.empty_chunk
                  eq_refl)).
Defined.

Section Stream.

Variable host : Host.

Lemma deltaName_named (d : ChoiceDeltaToolCall) :
  deltaName d = if named d then Some (delta_name_value d) else None.
Proof.
  unfold deltaName, named, delta_name_value, string_truthy.
  destruct (delta_function d) as [f |]; [| reflexivity].
  destruct (delta_name f) as [n |]; [| reflexivity].
  cbn. destruct (n =? ""); reflexivity.
Qed.

(** A delta without a function name can be taken out of the loop. *)
Lemma deltaFunctionCallParts_skip (pre post : list ChoiceDeltaToolCall)
  (d : ChoiceDeltaToolCall) :
  named d = false ->
  deltaFunctionCallParts host (pre ++ d :: post)
  = deltaFunctionCallParts host (pre ++ post).
Proof.
  intros Hd. induction pre as [| d' pre IH]; cbn.
  - rewrite deltaName_named, Hd. reflexivity.
  - rewrite IH. reflexivity.
Qed.

Lemma deltaFunctionCallParts_unnamed (deltas : list ChoiceDeltaToolCall) :
  Forall (fun d => named d = false) deltas ->
  deltaFunctionCallParts host deltas = Ok [].
Proof.
  induction 1 as [| d deltas Hd _ IH]; cbn.
  - reflexivity.
  - rewrite deltaName_named, Hd. exact IH.
Qed.

(** The parts the loop pushes are call parts, one per named delta and in
    the same order, each under the name its delta carries. *)
Lemma deltaFunctionCallParts_ok (deltas : list ChoiceDeltaToolCall)
  (parts : list value) :
  deltaFunctionCallParts host deltas = Ok parts ->
  Forall (fun p => is_call p = true) parts
  /\ map (fun p => fc_name (call_value p)) parts
     = map (fun d => Some (delta_name_value d)) (filter named deltas).
Proof.
  revert parts. induction deltas as [| d deltas IH]; cbn; intros parts H.
  - injection H as <-. split; [constructor | reflexivity].
  - rewrite deltaName_named in H. destruct (named d).
    + destruct (deltaArguments host d) as [args | e]; cbn in H; [| discriminate].
      destruct (deltaFunctionCallParts host deltas) as [more | e]; cbn in H;
        [| discriminate].
      injection H as <-. destruct (IH more eq_refl) as [Hcalls Hnames].
      split; [constructor; [reflexivity | exact Hcalls] |].
      cbn. rewrite Hnames. reflexivity.
    + now apply IH.
Qed.

Lemma filter_is_call_all (parts : list value) :
  Forall (fun p => is_call p = true) parts -> filter is_call parts = parts.
Proof.
  induction 1 as [| p ps Hp _ IH]; cbn.
  - reflexivity.
  - rewrite Hp, IH. reflexivity.
Qed.

Lemma calls_after_text (x : option string) (callParts : list value) :
  Forall (fun p => is_call p = true) callParts ->
  calls (textPartOf x ++ callParts) = map call_value callParts.
Proof.
  intros Hc. unfold calls, textPartOf.
  destruct x as [c |]; [destruct (string_truthy c) |]; cbn;
    now rewrite (filter_is_call_all _ Hc).
Qed.

(** What a successful conversion of a chunk looks like. *)
Lemma convertStreamChunk_ok (chunk : ChatCompletionChunk)
  (response : GenerateContentResponse) :
  convertStreamChunkToGeminiResponse host chunk = Ok response ->
  exists (x : option string) (callParts : list value),
    deltaFunctionCallParts host (chunk_deltas chunk) = Ok callParts
    /\ response_parts response = (textPartOf x ++ callParts)%list.
Proof.
  unfold convertStreamChunkToGeminiResponse, chunk_deltas. intros H.
  destruct (firstDelta chunk) as [d |].
  - destruct (delta_tool_calls d) as [deltas |]; cbn in *.
    + destruct (deltaFunctionCallParts host deltas) as [callParts | e]; cbn in H;
        [| discriminate].
      injection H as <-. now exists (delta_content d), callParts.
    + injection H as <-. now exists (delta_content d), [].
  - cbn in *. injection H as <-. now exists None, [].
Qed.

End Stream.

(** C9: the FunctionCall parts of a translated chunk are exactly those of
    the tool-call deltas that carry a non-empty function name, in order and
    under that name; a chunk whose deltas all lack a name (absent or empty)
    translates to a response without FunctionCall part, whatever argument
    text they carry; and taking a nameless delta out of a chunk does not
    change its translation. *)
Theorem nameless_deltas_yield_no_call (host : Host) (chunk : ChatCompletionChunk) :
  (forall response,
      convertStreamChunkToGeminiResponse host chunk = Ok response ->
      map fc_name (calls (response_parts response))
      = map (fun d => Some (delta_name_value d)) (filter named (chunk_deltas chunk)))
  /\ (Forall (fun d => named d = false) (chunk_deltas chunk) ->
      exists response,
        convertStreamChunkToGeminiResponse host chunk = Ok response
        /\ calls (response_parts response) = [])
  /\ (forall content pre d post others,
        named d = false ->
        convertStreamChunkToGeminiResponse host
          (chunk_with content (pre ++ d :: post) others)
        = convertStreamChunkToGeminiResponse host
            (chunk_with content (pre ++ post) others)).
Proof.
  split; [| split].
  - intros response H.
    destruct (convertStreamChunk_ok host _ _ H) as (x & callParts & Hloop & ->).
    destruct (deltaFunctionCallParts_ok host _ _ Hloop) as [Hcalls Hnames].
    rewrite (calls_after_text x _ Hcalls), map_map. exact Hnames.
  - intros Hnone.
    pose proof (deltaFunctionCallParts_unnamed host _ Hnone) as Hloop.
    unfold convertStreamChunkToGeminiResponse, chunk_deltas in *.
    destruct (firstDelta chunk) as [d |].
    + destruct (delta_tool_calls d) as [deltas |]; cbn in *.
      * rewrite Hloop. cbn. eexists. split; [reflexivity |].
        cbn. rewrite app_nil_r. unfold calls, textPartOf.
        destruct (delta_content d) as [c |]; [destruct (string_truthy c) |];
          reflexivity.
      * eexists. split; [reflexivity |].
        cbn. rewrite app_nil_r. unfold calls, textPartOf.
        destruct (delta_content d) as [c |]; [destruct (string_truthy c) |];
          reflexivity.
    + eexists. split; reflexivity.
  - intros content pre d post others Hd.
    unfold convertStreamChunkToGeminiResponse, chunk_with, firstDelta. cbn.
    rewrite (deltaFunctionCallParts_skip host pre post d Hd). reflexivity.
Qed.

(** C9 on a continuation chunk, whose delta has no name and an argument
    fragment that is no JSON text by itself, and on the chunk that opens the
    call. *)
Lemma nameless_deltas_yield_no_call_witness :
  (exists response,
      convertStreamChunkToGeminiResponse Fixture.host Fixture.continuation_chunk
      = Ok response
      /\ calls (response_parts response) = [])
  /\ (forall response,
        convertStreamChunkToGeminiResponse Fixture.host Fixture.opening_chunk
        = Ok response ->
        map fc_name (calls (response_parts response)) = [Some "lookup"]).
Proof.
  split.
  - apply (proj1 (proj2 (nameless_deltas_yield_no_call Fixture.host
                           Fixture.continuation_chunk))).
    repeat constructor.
  - intros response H.
    exact (proj1 (nameless_deltas_yield_no_call Fixture.host Fixture.opening_chunk)
             response H).
Defined.

(** ** Properties of convertToOpenAIMessages *)

Section Messages.

Variable host : Host.

Lemma string_or_empty (t : string) : string_or (Some t) "" = t.
Proof.
  unfold string_or, string_truthy. destruct (String.eqb_spec t ""); cbn;
    congruence.
Qed.

Lemma string_or_default (o : option string) :
  string_or o "" = nullish_default o "".
Proof.
  destruct o as [t |]; [apply string_or_empty | reflexivity].
Qed.

(** Running one computation after another. *)
Lemma rbind_run {A B : Type} (m : Rand A) (f : A -> Rand B) (k k' : nat) (a : A) :
  m k = (a, k') -> rbind m f k = f a k'.
Proof.
  intros H. unfold rbind. rewrite H. reflexivity.
Qed.

Lemma new_call_id_run (k : nat) :
  new_call_id host k = (call_id_at host k, S k).
Proof. reflexivity. Qed.

(** The loop over the parts of a model turn collects the texts of the Text
    parts and one tool call per FunctionCall part, drawing one random number
    for each. *)
Lemma model_parts_run (parts : list value) (k : nat) :
  model_parts host parts k
  = ((texts parts, numbered_calls host k (calls parts)), k + length (calls parts)).
Proof.
  revert k. induction parts as [| part rest IH]; intros k.
  - cbn. unfold ret. now rewrite Nat.add_0_r.
  - destruct part as [s | r ps [t |] i [call |] fr]; cbn [model_parts].
    + rewrite (rbind_run _ _ _ _ _ (IH k)). reflexivity.
    + rewrite (rbind_run _ _ _ _ _ (IH k)). cbn [fst snd]. rewrite string_or_empty.
      reflexivity.
    + rewrite (rbind_run _ _ _ _ _ (IH k)). cbn [fst snd]. rewrite string_or_empty.
      reflexivity.
    + rewrite (rbind_run _ _ _ _ _ (new_call_id_run k)).
      rewrite (rbind_run _ _ _ _ _ (IH (S k))). cbn [fst snd].
      rewrite string_or_default. unfold ret. cbn. now rewrite Nat.add_succ_r.
    + apply IH.
Qed.

Lemma numbered_calls_length (k : nat) (cs : list FunctionCall) :
  length (numbered_calls host k cs) = length cs.
Proof.
  revert k. induction cs as [| c cs IH]; intros k; cbn; [| rewrite IH];
    reflexivity.
Qed.

Lemma numbered_calls_ids (k : nat) (cs : list FunctionCall) :
  map tool_call_id_of (numbered_calls host k cs)
  = map (call_id_at host) (seq k (length cs)).
Proof.
  revert k. induction cs as [| c cs IH]; intros k; cbn; [| rewrite IH];
    reflexivity.
Qed.

(** The message of a model turn that has a [parts] list. *)
Lemma assistantMessage_run (r : option string) (parts : list value)
  (t : option string) (i : option Blob) (fc : option FunctionCall)
  (fr : option FunctionResponse) (k : nat) :
  assistantMessage host (VObject r (Some parts) t i fc fr) k
  = (AssistantMessage
       (match texts parts, calls parts with
        | _ :: _, _ => Some (join newline (texts parts))
        | [], [] => Some ""
        | [], _ :: _ => None
        end)
       (match calls parts with
        | [] => None
        | _ :: _ => Some (numbered_calls host k (calls parts))
        end),
     k + length (calls parts)).
Proof.
  unfold assistantMessage. cbn [parts_of].
  rewrite (rbind_run _ _ _ _ _ (model_parts_run parts k)). cbn [fst snd]. unfold ret.
  rewrite numbered_calls_length.
  destruct (texts parts) as [| t1 ts], (calls parts) as [| c1 cs]; reflexivity.
Qed.

Lemma model_turn_run (parts : list value) (t : option string) (i : option Blob)
  (fc : option FunctionCall) (fr : option FunctionResponse) (k : nat) :
  convertToOpenAIMessages host [VObject (Some "model") (Some parts) t i fc fr] k
  = ([fst (assistantMessage host (VObject (Some "model") (Some parts) t i fc fr) k)],
     k + length (calls parts)).
Proof.
  set (turn := VObject (Some "model") (Some parts) t i fc fr).
  cbn [convertToOpenAIMessages]. unfold contentMessages.
  replace (role_is turn "user") with false by reflexivity.
  replace (role_is turn "model") with true by reflexivity.
  unfold rbind, ret. subst turn. rewrite assistantMessage_run. reflexivity.
Qed.

Lemma texts_nil (parts : list value) :
  texts parts = [] <-> existsb is_text parts = false.
Proof.
  unfold texts. induction parts as [| p ps IH]; cbn.
  - tauto.
  - destruct (is_text p); cbn; [split; discriminate | exact IH].
Qed.

Lemma calls_nil (parts : list value) :
  calls parts = [] <-> existsb is_call parts = false.
Proof.
  unfold calls. induction parts as [| p ps IH]; cbn.
  - tauto.
  - destruct (is_call p); cbn; [split; discriminate | exact IH].
Qed.

(** The content of the message of a model turn that has a [parts] list:
    text wins, calls alone give [null], neither gives the empty string. *)
Lemma model_turn_content (parts : list value) (t : option string) (i : option Blob)
  (fc : option FunctionCall) (fr : option FunctionResponse) (k : nat) :
  exists m,
    fst (convertToOpenAIMessages host [VObject (Some "model") (Some parts) t i fc fr] k)
    = [m]
    /\ (existsb is_text parts = true ->
        assistant_content m = Some (join newline (texts parts)))
    /\ (existsb is_text parts = false -> existsb is_call parts = true ->
        assistant_content m = None)
    /\ (existsb is_text parts = false -> existsb is_call parts = false ->
        assistant_content m = Some "").
Proof.
  rewrite model_turn_run, assistantMessage_run. cbn [fst].
  eexists. split; [reflexivity |]. cbn [assistant_content].
  pose proof (texts_nil parts) as Ht. pose proof (calls_nil parts) as Hc.
  destruct Ht as [Ht1 Ht2], Hc as [Hc1 Hc2].
  destruct (texts parts) as [| t1 ts], (calls parts) as [| c1 cs];
    repeat split; intros; try reflexivity; exfalso;
    first [ specialize (Ht1 eq_refl); congruence
          | specialize (Hc1 eq_refl); congruence
          | specialize (Ht2 ltac:(assumption)); discriminate
          | specialize (Hc2 ltac:(assumption)); discriminate ].
Qed.

(** C2 fails on the code for a model turn that has no [parts] property: its
    message has [null] content and no tool calls, although the turn has
    neither Text nor FunctionCall parts.  With an empty [parts] list the
    content is the empty string, and the user branch reads a missing
    [parts] as the empty list. *)
Theorem model_turn_without_parts_null_content (t : option string)
  (i : option Blob) (fc : option FunctionCall) (fr : option FunctionResponse)
  (k : nat) :
  convertToOpenAIMessages host [VObject (Some "model") None t i fc fr] k
  = ([AssistantMessage None None], k)
  /\ convertToOpenAIMessages host [VObject (Some "model") (Some []) t i fc fr] k
     = ([AssistantMessage (Some "") None], k)
  /\ convertToOpenAIMessages host [VObject (Some "user") None t i fc fr] k
     = ([UserMessage (UserString "")], k).
Proof.
  repeat split.
Qed.

End Messages.

(** The failing input of C2, run. *)
Lemma model_turn_without_parts_null_content_witness :
  convertToOpenAIMessages Fixture.host [Fixture.model_without_parts] 0
  = ([AssistantMessage None None], 0).
Proof.
  exact (proj1 (model_turn_without_parts_null_content Fixture.host
                  None None None None 0)).
Defined.

(** *** Tool-call identifiers *)

Section Identifiers.

Variable host : Host.

Lemma call_id_at_fragment (k : nat) :
  call_id_at host k = "call_" ++ fragment_at host k.
Proof. reflexivity. Qed.

Lemma call_prefix_injective (a b : string) :
  "call_" ++ a = "call_" ++ b -> a = b.
Proof.
  cbn. intros H. now injection H.
Qed.

(** Identifiers are distinct exactly when the fragments are. *)
Lemma call_ids_NoDup (l : list nat) :
  NoDup (map (call_id_at host) l) <-> NoDup (map (fragment_at host) l).
Proof.
  induction l as [| k l IH]; cbn.
  - split; constructor.
  - split; intros H; inversion H as [| x xs Hnotin Hnodup]; subst;
      constructor; try (now apply IH).
    + intros Hin. apply Hnotin. apply in_map_iff in Hin as (j & Hj & Hin).
      apply in_map_iff. exists j. split; [| exact Hin].
      rewrite !call_id_at_fragment. now rewrite Hj.
    + intros Hin. apply Hnotin. apply in_map_iff in Hin as (j & Hj & Hin).
      apply in_map_iff. exists j. split; [| exact Hin].
      rewrite !call_id_at_fragment in Hj. now apply call_prefix_injective.
Qed.

End Identifiers.

(** C4, as stated, fails when two draws agree on the fragment the
    identifier keeps: here the generator returns two different numbers, and
    the two tool calls of the turn get the same identifier. *)
Lemma close_draws_repeat_identifier :
  PrimFloat.eqb (Math_random Fixture.near_host 0) (Math_random Fixture.near_host 1)
  = false
  /\ exists m,
      fst (convertToOpenAIMessages Fixture.near_host [Fixture.two_calls] 0) = [m]
      /\ map tool_call_id_of (assistant_tool_calls m)
         = ["call_3llllllll"; "call_3llllllll"]
      /\ ~ NoDup (map tool_call_id_of (assistant_tool_calls m)).
Proof.
  split; [reflexivity |].
  exists (AssistantMessage None
            (Some [FunctionToolCall "call_3llllllll"
                     {| fn_name := "lookup"; fn_arguments := Some "{}" |};
                   FunctionToolCall "call_3llllllll"
                     {| fn_name := "lookup"; fn_arguments := Some "{}" |}])).
  split; [vm_compute; reflexivity |]. split; [reflexivity |].
  cbn. intros H. inversion H as [| x xs Hnotin _]. apply Hnotin. now left.
Qed.

(** C4 (amended): a model turn is translated into one assistant message
    with one tool call per FunctionCall part; the identifier of the [j]-th
    one is [call_] followed by the nine-character fragment taken from the
    [j]-th random number drawn for the turn, and no collision check is made:
    the identifiers are pairwise distinct exactly when these fragments
    are. *)
Theorem tool_call_ids_distinct_iff_fragments_are (host : Host)
  (parts : option (list value)) (t : option string) (i : option Blob)
  (fc : option FunctionCall) (fr : option FunctionResponse) (k : nat) :
  exists m,
    fst (convertToOpenAIMessages host [VObject (Some "model") parts t i fc fr] k)
    = [m]
    /\ length (assistant_tool_calls m) = length (calls (array_or parts []))
    /\ map tool_call_id_of (assistant_tool_calls m)
       = map (fun j => "call_" ++ fragment_at host j)
             (seq k (length (calls (array_or parts []))))
    /\ (NoDup (map tool_call_id_of (assistant_tool_calls m))
        <-> NoDup (map (fragment_at host)
                       (seq k (length (calls (array_or parts [])))))).
Proof.
  destruct parts as [parts |]; cbn [array_or].
  - rewrite model_turn_run, assistantMessage_run. cbn [fst].
    eexists. split; [reflexivity |].
    assert (Hcalls :
      assistant_tool_calls
        (AssistantMessage
           (match texts parts, calls parts with
            | _ :: _, _ => Some (join newline (texts parts))
            | [], [] => Some ""
            | [], _ :: _ => None
            end)
           (match calls parts with
            | [] => None
            | _ :: _ => Some (numbered_calls host k (calls parts))
            end))
      = numbered_calls host k (calls parts)).
    { cbn. destruct (calls parts); reflexivity. }
    rewrite Hcalls, numbered_calls_length, numbered_calls_ids.
    split; [reflexivity |]. split; [reflexivity |].
    apply call_ids_NoDup.
  - exists (AssistantMessage None None). repeat split; constructor.
Qed.

(** The amended C4 on a turn with two calls, under a generator whose first
    two draws are 1/2 and 1/4. *)
Lemma tool_call_ids_distinct_iff_fragments_are_witness :
  exists m,
    fst (convertToOpenAIMessages Fixture.host [Fixture.two_calls] 0) = [m]
    /\ map tool_call_id_of (assistant_tool_calls m) = ["call_i"; "call_9"]
    /\ NoDup (map tool_call_id_of (assistant_tool_calls m)).
Proof.
  destruct (tool_call_ids_distinct_iff_fragments_are Fixture.host
              (Some [Fixture.lookup_call; Fixture.lookup_call])
              None None None None 0) as (m & Hm & _ & Hids & Hiff).
  exists m. split; [exact Hm |]. split; [exact Hids |].
  apply Hiff. vm_compute. repeat constructor; cbn; intuition discriminate.
Defined.

(** *** Function turns *)

Section FunctionTurns.

Variable host : Host.

Lemma toolMessages_run (parts : list value) :
  flat_map (toolMessage host) parts = map (tool_message_of host) (responses parts).
Proof.
  unfold responses. induction parts as [| p ps IH]; cbn [flat_map filter map].
  - reflexivity.
  - rewrite IH. unfold toolMessage, is_response.
    destruct (functionResponse_of p) as [r |] eqn:Hp; cbn [app map].
    + unfold response_value, tool_message_of at 1. rewrite Hp.
      cbn [nullish_default]. rewrite string_or_default. reflexivity.
    + reflexivity.
Qed.

(** C6: a function turn is translated into exactly one tool message per
    FunctionResponse part, in order: its content is the JSON serialization
    of the part's [response] and its [tool_call_id] is the part's [name];
    the other parts contribute nothing, and a turn without such parts (or
    without [parts]) contributes no message. *)
Theorem function_turn_messages (parts : option (list value)) (t : option string)
  (i : option Blob) (fc : option FunctionCall) (fr : option FunctionResponse)
  (k : nat) :
  convertToOpenAIMessages host [VObject (Some "function") parts t i fc fr] k
  = (map (fun r => ToolMessage (option_map (JSON_stringify host) (fr_response r))
                               (nullish_default (fr_name r) ""))
         (responses (array_or parts [])),
     k)
  /\ length (fst (convertToOpenAIMessages host
                    [VObject (Some "function") parts t i fc fr] k))
     = length (filter is_response (array_or parts [])).
Proof.
  assert (Hrun :
    convertToOpenAIMessages host [VObject (Some "function") parts t i fc fr] k
    = (map (tool_message_of host) (responses (array_or parts [])), k)).
  { set (turn := VObject (Some "function") parts t i fc fr).
    cbn [convertToOpenAIMessages]. unfold contentMessages.
    replace (role_is turn "user") with false by reflexivity.
    replace (role_is turn "model") with false by reflexivity.
    replace (role_is turn "function") with true by reflexivity.
    unfold rbind, ret, toolMessages. subst turn. cbn [parts_of].
    rewrite app_nil_r. destruct parts as [ps |]; cbn [array_or].
    - now rewrite toolMessages_run.
    - reflexivity. }
  rewrite Hrun. split; [reflexivity |].
  cbn [fst]. unfold responses. now rewrite !length_map.
Qed.

End FunctionTurns.

(** C6 on a turn with two responses around a text part. *)
Lemma function_turn_messages_witness :
  fst (convertToOpenAIMessages Fixture.host [Fixture.function_turn] 0)
  = [ToolMessage (Some ("{" ++ quote "city" ++ ":" ++ quote "Paris" ++ "}")) "lookup";
     ToolMessage (Some "null") "ping"].
Proof.
  pose proof (proj1 (function_turn_messages Fixture.host
                       (Some Fixture.function_parts) None None None None 0)) as H.
  unfold Fixture.function_turn, Content. rewrite H. reflexivity.
Defined.

(** ** Properties of the request the entry points build *)

Section Building.

Variable host : Host.
Variable this : OpenAIContentGenerator.

(** Both entry points build the same request, the [stream] flag apart. *)
Lemma requests_built_run (request : GenerateContentParameters) (k : nat)
  (p : ChatCompletionCreateParams) :
  In p (requests_built host this request k) ->
  OpenAI.messages p
  = (prefix_of host (config_of request) ++ translated host request k)%list
  /\ OpenAI.response_format p
     = match jsonSchema (config_of request) with
       | Some _ => Some json_object
       | None => None
       end
  /\ OpenAI.temperature p
     = nullish_default
         (nullish (Gemini.temperature (config_of request)) (legacy request gc_temperature))
         0%float
  /\ OpenAI.top_p p
     = nullish_default
         (nullish (topP (config_of request)) (legacy request gc_topP)) 1%float
  /\ OpenAI.max_tokens p
     = nullish (maxOutputTokens (config_of request))
         (legacy request gc_maxOutputTokens).
Proof.
  unfold requests_built, generateContent_params, generateContentStream_params,
    translated, prefix_of, config_of, rbind, ret.
  destruct (convertToOpenAIMessages host (normalizeContents (contents request)) k)
    as [messages k'].
  intros [<- | [<- | []]];
    destruct (jsonSchema (object_or (config request) empty_config));
    destruct (instruction (object_or (config request) empty_config));
    repeat split.
Qed.

Lemma jsonSchema_requested (config : GenerateContentConfig) (schema : json) :
  json_requested config schema -> jsonSchema config = Some schema.
Proof.
  intros (Hm & Hs & Ht). unfold jsonSchema. rewrite Hm, Hs, Ht. reflexivity.
Qed.

Lemma jsonSchema_not_requested (config : GenerateContentConfig) :
  (forall schema, ~ json_requested config schema) -> jsonSchema config = None.
Proof.
  intros Hnot. unfold jsonSchema.
  destruct (responseMimeType config) as [m |] eqn:Hm; [| reflexivity].
  destruct (responseJsonSchema config) as [schema |] eqn:Hs; [| reflexivity].
  destruct (String.eqb_spec m "application/json") as [-> | Hne]; [| reflexivity].
  destruct (json_truthy schema) eqn:Ht; [| reflexivity].
  exfalso. apply (Hnot schema). repeat split; assumption.
Qed.

Lemma instruction_instructed (config : GenerateContentConfig) (text : string) :
  instructed config text -> instruction config = Some text.
Proof.
  intros [Hs Hne]. unfold instruction. rewrite Hs.
  apply string_truthy_true in Hne. now rewrite Hne.
Qed.

Lemma instruction_not_instructed (config : GenerateContentConfig) :
  not_instructed config -> instruction config = None.
Proof.
  unfold instruction. intros [-> | ->]; reflexivity.
Qed.

End Building.

(** C7: in the requests of [generateContent] and [generateContentStream]
    alike, [temperature] is the config's if present, else the generation
    config's if present, else 0; [top_p] likewise with default 1;
    [max_tokens] is the config's [maxOutputTokens] if present, else the
    generation config's, and is left unset when neither is present. *)
Theorem sampling_fallback (host : Host) (this : OpenAIContentGenerator)
  (request : GenerateContentParameters) (k : nat) :
  Forall
    (fun p =>
       OpenAI.temperature p
       = chosen (Gemini.temperature (config_of request))
                (legacy_of request gc_temperature) 0%float
       /\ OpenAI.top_p p
          = chosen (topP (config_of request)) (legacy_of request gc_topP) 1%float
       /\ OpenAI.max_tokens p
          = chosen_or_unset (maxOutputTokens (config_of request))
                            (legacy_of request gc_maxOutputTokens))
    (requests_built host this request k)
  /\ map OpenAI.stream (requests_built host this request k) = [false; true].
Proof.
  split.
  - apply Forall_forall. intros p Hp.
    destruct (requests_built_run host this request k p Hp)
      as (_ & _ & Htemp & Htop & Hmax).
    rewrite Htemp, Htop, Hmax. unfold legacy, legacy_of, chosen, chosen_or_unset.
    destruct (Gemini.temperature (config_of request)),
      (topP (config_of request)), (maxOutputTokens (config_of request)),
      (generationConfig request) as [g |];
      cbn; try destruct (gc_temperature g); try destruct (gc_topP g);
      try destruct (gc_maxOutputTokens g); repeat split.
  - unfold requests_built, generateContent_params, generateContentStream_params,
      rbind, ret.
    destruct (convertToOpenAIMessages host (normalizeContents (contents request)) k).
    destruct (jsonSchema (object_or (config request) empty_config));
      reflexivity.
Qed.

(** C7 on a request whose config sets the temperature to 0 and whose
    generation config sets 1/2 for the temperature and 1/4 for [top_p]. *)
Lemma sampling_fallback_witness :
  map (fun p => (OpenAI.temperature p, top_p p, max_tokens p))
      (requests_built Fixture.host (Fixture.generator Fixture.greeting)
         Fixture.cold_request 0)
  = [(0%float, 0.25%float, None); (0%float, 0.25%float, None)].
Proof.
  pose proof (sampling_fallback Fixture.host (Fixture.generator Fixture.greeting)
                Fixture.cold_request 0) as [Hall _].
  rewrite Forall_forall in Hall.
  destruct (Hall _ (or_introl eq_refl)) as (Ht1 & Hp1 & Hm1).
  destruct (Hall _ (or_intror (or_introl eq_refl))) as (Ht2 & Hp2 & Hm2).
  unfold requests_built. cbn [map].
  rewrite Ht1, Hp1, Hm1, Ht2, Hp2, Hm2. reflexivity.
Defined.

(** C1, as stated, fails for a config that sets [systemInstruction] to the
    empty string: with JSON output requested under a schema, the message
    list starts with the schema message, and no message for the instruction
    comes before it. *)
Lemma empty_instruction_not_prepended :
  systemInstruction (Fixture.json_config (Some "")) = Some ""
  /\ responseMimeType (Fixture.json_config (Some "")) = Some "application/json"
  /\ responseJsonSchema (Fixture.json_config (Some "")) = Some Fixture.object_schema
  /\ OpenAI.messages
       (fst (generateContent_params Fixture.host (Fixture.generator Fixture.greeting)
               (Fixture.hello (Fixture.json_config (Some ""))) 0))
     = [SystemMessage (schema_text Fixture.host Fixture.object_schema);
        UserMessage (UserString "Hello")]
  /\ OpenAI.messages
       (fst (generateContent_params Fixture.host (Fixture.generator Fixture.greeting)
               (Fixture.hello (Fixture.json_config (Some ""))) 0))
     <> SystemMessage ""
        :: SystemMessage (schema_text Fixture.host Fixture.object_schema)
        :: translated Fixture.host (Fixture.hello (Fixture.json_config (Some ""))) 0.
Proof.
  repeat split. vm_compute. discriminate.
Qed.

(** C1 (amended): in the request of either entry point, when the config
    sets [responseMimeType] to [application/json] with a truthy
    [responseJsonSchema] and a non-empty [systemInstruction], the message
    list is a system message with the instruction text, then a system
    message whose text embeds the JSON serialization of the schema, then the
    messages translated from the turns, and the response format is the
    JSON-object mode; when only the schema condition holds, only the schema
    message is prepended, with the JSON-object mode; when only the
    instruction condition holds, only the instruction message is prepended
    and no response format is set; when neither holds, the messages are the
    translated ones. *)
Theorem system_messages_prepended (host : Host) (this : OpenAIContentGenerator)
  (request : GenerateContentParameters) (k : nat) (p : ChatCompletionCreateParams) :
  In p (requests_built host this request k) ->
  (forall schema text,
      json_requested (config_of request) schema ->
      instructed (config_of request) text ->
      OpenAI.messages p
      = SystemMessage text
        :: SystemMessage
             ("You must respond with valid JSON that conforms to this schema: "
              ++ JSON_stringify host schema
              ++ ". Return ONLY the JSON object, no additional text.")
        :: translated host request k
      /\ response_format p = Some json_object)
  /\ (forall schema,
        json_requested (config_of request) schema ->
        not_instructed (config_of request) ->
        OpenAI.messages p
        = SystemMessage
            ("You must respond with valid JSON that conforms to this schema: "
             ++ JSON_stringify host schema
             ++ ". Return ONLY the JSON object, no additional text.")
          :: translated host request k
        /\ response_format p = Some json_object)
  /\ (forall text,
        (forall schema, ~ json_requested (config_of request) schema) ->
        instructed (config_of request) text ->
        OpenAI.messages p = SystemMessage text :: translated host request k
        /\ response_format p = None)
  /\ ((forall schema, ~ json_requested (config_of request) schema) ->
      not_instructed (config_of request) ->
      OpenAI.messages p = translated host request k
      /\ response_format p = None).
Proof.
  intros Hp.
  destruct (requests_built_run host this request k p Hp) as (Hm & Hf & _).
  rewrite Hm, Hf. unfold prefix_of.
  split; [| split; [| split]].
  - intros schema text Hj Hi.
    rewrite (jsonSchema_requested _ _ Hj), (instruction_instructed _ _ Hi).
    split; reflexivity.
  - intros schema Hj Hi.
    rewrite (jsonSchema_requested _ _ Hj), (instruction_not_instructed _ Hi).
    split; reflexivity.
  - intros text Hj Hi.
    rewrite (jsonSchema_not_requested _ Hj), (instruction_instructed _ _ Hi).
    split; reflexivity.
  - intros Hj Hi.
    rewrite (jsonSchema_not_requested _ Hj), (instruction_not_instructed _ Hi).
    split; reflexivity.
Qed.

(** The amended C1 on a request for JSON output with the instruction
    [Be brief]. *)
Lemma system_messages_prepended_witness :
  OpenAI.messages
    (fst (generateContent_params Fixture.host (Fixture.generator Fixture.greeting)
            (Fixture.hello (Fixture.json_config (Some "Be brief"))) 0))
  = [SystemMessage "Be brief";
     SystemMessage
       ("You must respond with valid JSON that conforms to this schema: "
        ++ ("{" ++ quote "type" ++ ":" ++ quote "object" ++ "}")
        ++ ". Return ONLY the JSON object, no additional text.");
     UserMessage (UserString "Hello")]
  /\ response_format
       (fst (generateContent_params Fixture.host (Fixture.generator Fixture.greeting)
               (Fixture.hello (Fixture.json_config (Some "Be brief"))) 0))
     = Some json_object.
Proof.
  apply (proj1 (system_messages_prepended Fixture.host
                  (Fixture.generator Fixture.greeting)
                  (Fixture.hello (Fixture.json_config (Some "Be brief"))) 0 _
                  (or_introl eq_refl))
           Fixture.object_schema "Be brief").
  - repeat split.
  - split; [reflexivity | discriminate].
Defined.

(** ** Further properties of normalizeContents and convertToOpenAIMessages *)

(** X1: what the normalizer returns is a list of turns already: it is empty
    only for the empty array, its first element always has a [role], and
    normalizing it again changes nothing. *)
Theorem normalizeContents_idempotent (c : ContentListUnion) :
  normalizeContents (ContentArray (normalizeContents c)) = normalizeContents c
  /\ (normalizeContents c = [] <-> c = ContentArray [])
  /\ (forall first rest,
        normalizeContents c = first :: rest -> exists r, role_of first = Some r).
Proof.
  destruct c as [[| x l] | [s | r ps t i fc fr]].
  - repeat split; intros; try discriminate; reflexivity.
  - unfold normalizeContents at 2 3 4 5. unfold first_exposes_role.
    cbn [length Nat.eqb orb nth_error].
    destruct x as [s | [r |] ps t i fc fr]; cbn [exposes_role];
      (split; [reflexivity |]);
      (split; [split; discriminate |]);
      intros first rest H; injection H as <- _; now eexists.
  - repeat split; intros; try discriminate.
    injection H as <- _. now eexists.
  - repeat split; intros; try discriminate.
    injection H as <- _. now eexists.
Qed.

Section Translation.

Variable host : Host.

Lemma contentMessages_untranslated (x : value) (k : nat) :
  translated_role x = false -> contentMessages host x k = ([], k).
Proof.
  unfold translated_role, contentMessages. intros H.
  destruct (role_is x "user"); [discriminate |].
  destruct (role_is x "model"); [discriminate |].
  destruct (role_is x "function"); [discriminate |]. reflexivity.
Qed.

Lemma convertToOpenAIMessages_cons (x : value) (l : list value) (k : nat) :
  convertToOpenAIMessages host (x :: l) k
  = (fst (contentMessages host x k)
     ++ fst (convertToOpenAIMessages host l (snd (contentMessages host x k))),
     snd (convertToOpenAIMessages host l (snd (contentMessages host x k))))%list.
Proof.
  cbn [convertToOpenAIMessages]. unfold rbind, ret.
  destruct (contentMessages host x k) as [ms k1]. cbn [fst snd].
  destruct (convertToOpenAIMessages host l k1) as [more k2]. reflexivity.
Qed.

(** The draws one element of [contents] takes. *)
Lemma contentMessages_draws (x : value) (k : nat) :
  snd (contentMessages host x k) = k + drawn_for x.
Proof.
  unfold contentMessages, drawn_for.
  destruct (role_is x "user"); [cbn; lia |].
  destruct (role_is x "model").
  - unfold rbind, ret.
    destruct x as [s | r [parts |] t i fc fr].
    + cbn. lia.
    + rewrite assistantMessage_run. cbn. reflexivity.
    + cbn. lia.
  - destruct (role_is x "function"); cbn; lia.
Qed.

Lemma convertToOpenAIMessages_draws (l : list value) (k : nat) :
  snd (convertToOpenAIMessages host l k) = k + drawn l.
Proof.
  revert k. induction l as [| x l IH]; intros k.
  - cbn. lia.
  - rewrite convertToOpenAIMessages_cons. cbn [snd].
    rewrite IH, contentMessages_draws. unfold drawn, list_sum. cbn [map fold_right]. lia.
Qed.

Lemma convertToOpenAIMessages_append (a b : list value) (k : nat) :
  convertToOpenAIMessages host (a ++ b) k
  = (fst (convertToOpenAIMessages host a k)
     ++ fst (convertToOpenAIMessages host b (snd (convertToOpenAIMessages host a k))),
     snd (convertToOpenAIMessages host b (snd (convertToOpenAIMessages host a k))))%list.
Proof.
  revert k. induction a as [| x a IH]; intros k.
  - cbn [app convertToOpenAIMessages]. unfold ret. cbn [fst snd app].
    now destruct (convertToOpenAIMessages host b k).
  - cbn [app]. rewrite !convertToOpenAIMessages_cons, IH. cbn [fst snd].
    now rewrite app_assoc.
Qed.

Lemma contentMessages_no_system (x : value) (k : nat) :
  Forall (fun m => is_system m = false) (fst (contentMessages host x k)).
Proof.
  unfold contentMessages.
  destruct (role_is x "user"); [repeat constructor |].
  destruct (role_is x "model").
  - unfold rbind, ret. destruct (assistantMessage host x k) as [m k'] eqn:Hm.
    cbn. constructor; [| constructor].
    unfold assistantMessage, rbind, ret in Hm.
    destruct (parts_of x) as [parts |].
    + destruct (model_parts host parts k). injection Hm as <- _. reflexivity.
    + injection Hm as <- _. reflexivity.
  - destruct (role_is x "function"); [| constructor].
    cbn. unfold toolMessages. destruct (parts_of x) as [parts |]; [| constructor].
    induction parts as [| p parts IH]; cbn; [constructor |].
    apply Forall_app. split; [| exact IH].
    unfold toolMessage. destruct (functionResponse_of p); repeat constructor.
Qed.

Lemma convertToOpenAIMessages_no_system (l : list value) (k : nat) :
  Forall (fun m => is_system m = false) (fst (convertToOpenAIMessages host l k)).
Proof.
  revert k. induction l as [| x l IH]; intros k.
  - constructor.
  - rewrite convertToOpenAIMessages_cons. cbn [fst]. apply Forall_app.
    split; [apply contentMessages_no_system | apply IH].
Qed.

End Translation.

(** X2: an element of [contents] whose role is none of [user], [model] and
    [function] (a [system] turn, a turn without role, a bare string) is
    dropped: it adds no message and draws no random number, so taking it out
    of the list leaves the translation as it is. *)
Theorem untranslated_roles_are_dropped (host : Host) (pre post : list value)
  (x : value) (k : nat) :
  translated_role x = false ->
  convertToOpenAIMessages host (pre ++ x :: post) k
  = convertToOpenAIMessages host (pre ++ post) k.
Proof.
  intros Hx. rewrite !convertToOpenAIMessages_append.
  rewrite (convertToOpenAIMessages_cons host x post).
  rewrite (contentMessages_untranslated host x _ Hx). reflexivity.
Qed.

(** X2 on a history with a [system] turn between a user and a model turn. *)
Lemma untranslated_roles_are_dropped_witness :
  convertToOpenAIMessages Fixture.host
    [Content "user" [TextPart "hi"]; Content "system" [TextPart "obey"];
     Content "model" [TextPart "ok"]] 0
  = ([UserMessage (UserString "hi"); AssistantMessage (Some "ok") None], 0).
Proof.
  exact (eq_trans
           (untranslated_roles_are_dropped Fixture.host
              [Content "user" [TextPart "hi"]] [Content "model" [TextPart "ok"]]
              (Content "system" [TextPart "obey"]) 0 eq_refl)
           eq_refl).
Defined.

(** X3: translation goes turn by turn.  The messages of a history extended
    by further turns are the messages of the history followed by the
    messages of the further turns, these being translated with the random
    numbers that come after those the history used; and a history uses one
    random number per FunctionCall part of its model turns. *)
Theorem convertToOpenAIMessages_app (host : Host) (a b : list value) (k : nat) :
  fst (convertToOpenAIMessages host (a ++ b) k)
  = (fst (convertToOpenAIMessages host a k)
     ++ fst (convertToOpenAIMessages host b (k + drawn a)))%list
  /\ snd (convertToOpenAIMessages host (a ++ b) k) = k + drawn a + drawn b.
Proof.
  rewrite convertToOpenAIMessages_append. cbn [fst snd].
  rewrite !convertToOpenAIMessages_draws. split; reflexivity.
Qed.

(** X4: the translation of the turns never yields a system message, so in
    the request of either entry point the system messages are the (at most
    two) messages the generator itself puts in front. *)
Theorem system_messages_only_in_front (host : Host) (this : OpenAIContentGenerator)
  (request : GenerateContentParameters) (k : nat) :
  Forall
    (fun p =>
       exists front,
         OpenAI.messages p = (front ++ translated host request k)%list
         /\ length front <= 2
         /\ Forall (fun m => is_system m = true) front)
    (requests_built host this request k)
  /\ Forall (fun m => is_system m = false) (translated host request k).
Proof.
  split.
  - apply Forall_forall. intros p Hp.
    destruct (requests_built_run host this request k p Hp) as (Hm & _).
    exists (prefix_of host (config_of request)). split; [exact Hm |].
    unfold prefix_of.
    destruct (instruction (config_of request)), (jsonSchema (config_of request));
      cbn; split; try lia; repeat constructor.
  - apply convertToOpenAIMessages_no_system.
Qed.

(** ** Further properties of the part encoder, the tools and the requests *)

Lemma convertPart_all_text (parts : list value) :
  forallb is_text_part (flat_map convertPart parts) = negb (existsb is_image parts).
Proof.
  induction parts as [| p parts IH]; cbn [flat_map existsb].
  - reflexivity.
  - rewrite forallb_app, IH, negb_orb.
    destruct p as [s | r ps [t |] [b |] fc fr]; reflexivity.
Qed.

Lemma convertPart_texts (parts : list value) :
  map part_text (filter is_text_part (flat_map convertPart parts)) = texts parts.
Proof.
  unfold texts. induction parts as [| p parts IH]; cbn [flat_map filter map].
  - reflexivity.
  - rewrite filter_app, map_app, IH.
    destruct p as [s | r ps [t |] [b |] fc fr];
      cbn [convertPart app filter is_text_part is_text map part_text text_value];
      rewrite ?string_or_empty; reflexivity.
Qed.

Lemma convertPart_images (parts : list value) :
  length (filter is_image_block (flat_map convertPart parts))
  = length (filter is_image parts).
Proof.
  induction parts as [| p parts IH]; cbn [flat_map filter].
  - reflexivity.
  - rewrite filter_app, length_app, IH.
    destruct p as [s | r ps [t |] [b |] fc fr]; reflexivity.
Qed.

Lemma filter_all {A : Type} (f : A -> bool) (l : list A) :
  forallb f l = true -> filter f l = l.
Proof.
  induction l as [| x l IH]; cbn; [reflexivity |].
  destruct (f x); cbn; [intros H; now rewrite IH | discriminate].
Qed.

(** X5: the content of a user message is a plain string, the texts of the
    Text parts joined by newlines, exactly when no part is an inline-data
    part; otherwise it is a non-empty list of blocks that keeps the texts in
    order and has one image block per inline-data part.  Parts of any other
    kind are dropped in both cases. *)
Theorem convertPartsToOpenAI_shape (parts : list value) :
  (existsb is_image parts = false ->
   convertPartsToOpenAI parts = UserString (join newline (texts parts)))
  /\ (existsb is_image parts = true ->
      exists blocks,
        convertPartsToOpenAI parts = UserParts blocks
        /\ map part_text (filter is_text_part blocks) = texts parts
        /\ length (filter is_image_block blocks) = length (filter is_image parts)
        /\ blocks <> []).
Proof.
  unfold convertPartsToOpenAI.
  pose proof (convertPart_all_text parts) as Hall.
  pose proof (convertPart_texts parts) as Htexts.
  pose proof (convertPart_images parts) as Himages.
  split; intros H; rewrite H in Hall; cbn [negb] in Hall; rewrite Hall.
  - now rewrite <- Htexts, (filter_all _ _ Hall).
  - eexists. repeat split; [exact Htexts | exact Himages |].
    intros Hnil. rewrite Hnil in Hall. discriminate.
Qed.

(** X5 on a sentence with a picture, and on two lines of text around a
    function call. *)
Lemma convertPartsToOpenAI_shape_witness :
  convertPartsToOpenAI
    [TextPart "look";
     InlineDataPart {| mimeType := Some "image/png"; data := Some "AAAA" |}]
  = UserParts [ContentPartText "look";
               ContentPartImage "data:image/png;base64,AAAA"]
  /\ convertPartsToOpenAI [TextPart "one"; Fixture.lookup_call; VString "two"]
     = UserString ("one" ++ newline ++ "two").
Proof.
  split.
  - destruct (proj2 (convertPartsToOpenAI_shape
                       [TextPart "look";
                        InlineDataPart
                          {| mimeType := Some "image/png"; data := Some "AAAA" |}])
                eq_refl) as (blocks & Hblocks & _).
    rewrite Hblocks. vm_compute in Hblocks. injection Hblocks as <-. reflexivity.
  - exact (proj1 (convertPartsToOpenAI_shape
                    [TextPart "one"; Fixture.lookup_call; VString "two"]) eq_refl).
Defined.




(** X7: [generateContentStream] builds the request [generateContent]
    builds, with [stream] set; both draw the same random numbers, one per
    FunctionCall part of the model turns. *)
Theorem entry_points_build_the_same_request (host : Host)
  (this : OpenAIContentGenerator) (request : GenerateContentParameters) (k : nat) :
  fst (generateContentStream_params host this request k)
  = with_stream (fst (generateContent_params host this request k)) true
  /\ OpenAI.stream (fst (generateContent_params host this request k)) = false
  /\ snd (generateContentStream_params host this request k)
     = snd (generateContent_params host this request k)
  /\ snd (generateContent_params host this request k)
     = k + drawn (normalizeContents (contents request)).
Proof.
  pose proof (convertToOpenAIMessages_draws host
                (normalizeContents (contents request)) k) as Hdraws.
  unfold generateContent_params, generateContentStream_params, rbind, ret.
  destruct (convertToOpenAIMessages host (normalizeContents (contents request)) k)
    as [messages k'].
  cbn [snd] in Hdraws. subst k'.
  destruct (jsonSchema (object_or (config request) empty_config));
    repeat split.
Qed.

(** ** Further properties: identifiers, echoes and failures *)

Lemma substring_length (s : string) (n m : nat) :
  String.length (substring n m s) <= m.
Proof.
  revert n m. induction s as [| c s IH]; intros [| n] [| m]; cbn; try lia.
  - specialize (IH 0 m). lia.
  - apply (IH n 0).
  - apply (IH n (S m)).
Qed.

Lemma numbered_calls_In (host : Host) (cs : list FunctionCall) (k : nat)
  (tc : ChatCompletionMessageToolCall) :
  In tc (numbered_calls host k cs) ->
  exists j c, tc = tool_call_of host (call_id_at host j) c.
Proof.
  revert k. induction cs as [| c cs IH]; intros k; cbn.
  - intros [].
  - intros [<- | Hin]; [now exists k, c | now apply (IH (S k))].
Qed.

Lemma contentMessages_tool_calls (host : Host) (x : value) (k : nat)
  (m : ChatCompletionMessageParam) (tc : ChatCompletionMessageToolCall) :
  In m (fst (contentMessages host x k)) ->
  In tc (assistant_tool_calls m) ->
  exists j c, tc = tool_call_of host (call_id_at host j) c.
Proof.
  unfold contentMessages.
  destruct (role_is x "user"); [intros [<- | []] [] |].
  destruct (role_is x "model").
  - unfold rbind, ret. destruct x as [s | r [parts |] t i fc fr].
    + intros [<- | []] [].
    + rewrite assistantMessage_run. cbn [fst].
      intros [<- | []]. cbn [assistant_tool_calls].
      destruct (calls parts) as [| c cs] eqn:Hcs; [intros [] |].
      apply numbered_calls_In.
    + intros [<- | []] [].
  - destruct (role_is x "function"); [| intros []].
    cbn [fst ret]. unfold toolMessages.
    destruct (parts_of x) as [parts |]; [| intros []].
    intros Hin. apply in_flat_map in Hin as (p & _ & Hin).
    unfold toolMessage in Hin.
    destruct (functionResponse_of p); [| destruct Hin].
    destruct Hin as [<- | []]. intros [].
Qed.

(** X8: every tool call the translation attaches to an assistant message
    is a function tool call whose identifier is [call_] followed by at most
    nine characters. *)
Theorem call_ids_are_short (host : Host) (contents : list value) (k : nat)
  (m : ChatCompletionMessageParam) (tc : ChatCompletionMessageToolCall) :
  In m (fst (convertToOpenAIMessages host contents k)) ->
  In tc (assistant_tool_calls m) ->
  exists s f,
    tc = FunctionToolCall ("call_" ++ s) f
    /\ String.length s <= 9
    /\ String.length (tool_call_id_of tc) <= 14.
Proof.
  revert k. induction contents as [| x l IH]; intros k.
  - intros [].
  - rewrite convertToOpenAIMessages_cons. cbn [fst]. intros Hm Htc.
    apply in_app_or in Hm as [Hm | Hm]; [| now apply (IH _ Hm)].
    destruct (contentMessages_tool_calls host x k m tc Hm Htc) as (j & c & ->).
    exists (fragment_at host j). eexists. split; [reflexivity |].
    pose proof (substring_length (Number_toString36 host (Math_random host j)) 2 9)
      as Hlen.
    split; [exact Hlen |]. cbn. unfold substr. lia.
Qed.

(** X8 on a turn with two calls. *)
Lemma call_ids_are_short_witness :
  exists s f,
    FunctionToolCall "call_9" {| fn_name := "lookup"; fn_arguments := Some "{}" |}
    = FunctionToolCall ("call_" ++ s) f
    /\ String.length s <= 9
    /\ String.length
         (tool_call_id_of
            (FunctionToolCall "call_9"
               {| fn_name := "lookup"; fn_arguments := Some "{}" |})) <= 14.
Proof.
  apply (call_ids_are_short Fixture.host [Fixture.two_calls] 0
           (AssistantMessage None
              (Some [FunctionToolCall "call_i"
                       {| fn_name := "lookup"; fn_arguments := Some "{}" |};
                     FunctionToolCall "call_9"
                       {| fn_name := "lookup"; fn_arguments := Some "{}" |}]))).
  - vm_compute. now left.
  - cbn. right. now left.
Defined.

Section Echo.

Variable host : Host.

Lemma is_call_no_text (parts : list value) :
  Forall (fun p => is_call p = true) parts ->
  Forall (fun p => is_text p = false) parts.
Proof.
  apply Forall_impl. intros p. unfold is_call.
  destruct (is_text p); [discriminate | reflexivity].
Qed.

(** The text the converters pick is the content, when it is truthy. *)
Lemma textContent_content (x : option string) (callParts : list value) :
  Forall (fun p => is_text p = false) callParts ->
  textContent (textPartOf x ++ callParts) = string_or x "".
Proof.
  intros Hc. unfold textPartOf, string_or.
  destruct x as [c |]; [destruct (string_truthy c) eqn:Hc' |]; cbn.
  - now rewrite Hc'.
  - now apply textContent_no_text.
  - now apply textContent_no_text.
Qed.

(** The calls of a model turn, sent and parsed back. *)
Lemma functionCallParts_numbered (cs : list FunctionCall) (k : nat) :
  (forall c, In c cs ->
     JSON_parse host (string_or (JSON_stringify_opt host (fc_args c)) "{}")
     = Some (nullish_default (fc_args c) (JObj []))) ->
  functionCallParts host (numbered_calls host k cs)
  = Ok (map (fun c =>
               FunctionCallPart
                 {| fc_name := Some (nullish_default (fc_name c) "");
                    fc_args := Some (nullish_default (fc_args c) (JObj [])) |})
            cs).
Proof.
  revert k. induction cs as [| c cs IH]; intros k Hparse.
  - reflexivity.
  - cbn [numbered_calls tool_call_of functionCallParts fn_arguments fn_name].
    rewrite (Hparse c (or_introl eq_refl)).
    rewrite (IH (S k)); [reflexivity |].
    intros c' Hin. apply Hparse. now right.
Qed.

Lemma echo_assembled (content : option string) (cs : list FunctionCall)
  (k : nat) (u : option CompletionUsage) :
  (forall c, In c cs ->
     JSON_parse host (string_or (JSON_stringify_opt host (fc_args c)) "{}")
     = Some (nullish_default (fc_args c) (JObj []))) ->
  exists response,
    convertToGeminiResponse host
      (echo (AssistantMessage content
               (match cs with
                | [] => None
                | _ :: _ => Some (numbered_calls host k cs)
                end)) u)
    = Ok response
    /\ response_role response = Some "model"
    /\ response_parts response = (textPartOf content ++ echoed_calls cs)%list
    /\ response_text response = textContent (textPartOf content ++ echoed_calls cs).
Proof.
  intros Hparse. unfold convertToGeminiResponse, echo.
  cbn [choices nth_error message OpenAI.tool_calls OpenAI.content assistant_content].
  destruct cs as [| c cs].
  - cbn [bind]. eexists. split; [reflexivity |]. repeat split.
  - rewrite (functionCallParts_numbered (c :: cs) k Hparse). cbn [bind].
    eexists. split; [reflexivity |]. repeat split.
Qed.

End Echo.

(** X9: a model turn makes a round trip.  When the service echoes the
    assistant message the turn was translated into, and the host parses the
    arguments it serialized back to what they were, the response assembled
    from the echo has the texts of the turn joined by newlines as its text
    and the function calls of the turn, in order, as its FunctionCall parts
    (an absent name read as the empty string, absent arguments as the empty
    object). *)
Theorem model_turn_round_trip (host : Host) (parts : list value)
  (t : option string) (i : option Blob) (fc : option FunctionCall)
  (fr : option FunctionResponse) (k : nat) (u : option CompletionUsage) :
  (forall c, In c (calls parts) ->
     JSON_parse host (string_or (JSON_stringify_opt host (fc_args c)) "{}")
     = Some (nullish_default (fc_args c) (JObj []))) ->
  exists m response,
    fst (convertToOpenAIMessages host [VObject (Some "model") (Some parts) t i fc fr] k)
    = [m]
    /\ convertToGeminiResponse host (echo m u) = Ok response
    /\ response_role response = Some "model"
    /\ response_text response = join newline (texts parts)
    /\ calls (response_parts response)
       = map (fun c =>
                {| fc_name := Some (nullish_default (fc_name c) "");
                   fc_args := Some (nullish_default (fc_args c) (JObj [])) |})
             (calls parts).
Proof.
  intros Hparse. rewrite model_turn_run, assistantMessage_run. cbn [fst].
  destruct (echo_assembled host
              (match texts parts, calls parts with
               | _ :: _, _ => Some (join newline (texts parts))
               | [], [] => Some ""
               | [], _ :: _ => None
               end) (calls parts) k u Hparse)
    as (response & Hresponse & Hrole & Hparts & Htext).
  eexists. exists response. split; [reflexivity |].
  split; [exact Hresponse |]. split; [exact Hrole |].
  assert (Hback : Forall (fun p => is_call p = true) (echoed_calls (calls parts))).
  { apply Forall_forall. intros p Hin.
    apply in_map_iff in Hin as (c & <- & _). reflexivity. }
  rewrite Htext, Hparts.
  rewrite (textContent_content _ _ (is_call_no_text _ Hback)).
  rewrite (calls_after_text _ _ Hback). split.
  - destruct (texts parts) as [| t1 ts], (calls parts) as [| c1 cs];
      try reflexivity; apply string_or_empty.
  - unfold echoed_calls. now rewrite map_map.
Qed.

(** X9 on a turn that speaks and makes three calls. *)
Lemma model_turn_round_trip_witness :
  exists m response,
    fst (convertToOpenAIMessages Fixture.host [Content "model" Samples.spoken_calls] 0)
    = [m]
    /\ convertToGeminiResponse Fixture.host (echo m None) = Ok response
    /\ response_text response = "Checking"
    /\ map fc_name (calls (response_parts response))
       = [Some "lookup"; Some "weather"; Some ""].
Proof.
  destruct (model_turn_round_trip Fixture.host Samples.spoken_calls
              None None None None 0 None)
    as (m & response & Hm & Hr & _ & Ht & Hc).
  - intros c Hin. vm_compute in Hin.
    destruct Hin as [<- | [<- | [<- | []]]]; reflexivity.
  - exists m, response. split; [exact Hm |]. split; [exact Hr |].
    split; [exact Ht |]. rewrite Hc. reflexivity.
Defined.

(** X10: the [text] of an assembled response is the content of the first
    choice's message, and the [text] of a translated chunk is the content of
    the first choice's delta: the empty string when that content is absent,
    null or empty, whatever tool calls come with it. *)
Theorem response_text_is_the_content (host : Host) :
  (forall completion response,
      convertToGeminiResponse host completion = Ok response ->
      exists choice rest,
        choices completion = choice :: rest
        /\ response_text response = string_or (OpenAI.content (message choice)) "")
  /\ (forall chunk response,
        convertStreamChunkToGeminiResponse host chunk = Ok response ->
        response_text response
        = string_or (match firstDelta chunk with
                     | Some d => delta_content d
                     | None => None
                     end) "").
Proof.
  split.
  - intros completion response H.
    destruct (convertToGeminiResponse_ok host _ _ H)
      as (choice & rest & callParts & Hch & Hcalls & ->).
    exists choice, rest. split; [exact Hch |]. cbn [response_text].
    now apply textContent_content.
  - intros chunk response. unfold convertStreamChunkToGeminiResponse.
    destruct (firstDelta chunk) as [d |].
    + destruct (delta_tool_calls d) as [deltas |].
      * destruct (deltaFunctionCallParts host deltas) as [callParts | e] eqn:Hloop;
          cbn [bind]; [| discriminate].
        intros H. injection H as <-. cbn [response_text].
        apply textContent_content, is_call_no_text.
        now apply (deltaFunctionCallParts_ok host deltas).
      * cbn [bind]. intros H. injection H as <-. cbn [response_text].
        apply textContent_content. constructor.
    + cbn [bind]. intros H. injection H as <-. reflexivity.
Qed.

(** X10 on a plain answer and on a chunk that opens a call. *)
Lemma response_text_is_the_content_witness :
  (exists response,
      convertToGeminiResponse Fixture.host Fixture.greeting = Ok response
      /\ response_text response = "Hi")
  /\ (forall response,
        convertStreamChunkToGeminiResponse Fixture.host Fixture.opening_chunk
        = Ok response ->
        response_text response = "").
Proof.
  destruct (response_text_is_the_content Fixture.host) as [Hfull Hchunk].
  split.
  - eexists. split; [reflexivity |].
    destruct (Hfull Fixture.greeting _ eq_refl) as (choice & rest & Hch & Ht).
    injection Hch as <- _. exact Ht.
  - intros response H. exact (Hchunk Fixture.opening_chunk response H).
Defined.

Lemma functionCallParts_error (host : Host)
  (tcs : list ChatCompletionMessageToolCall) (e : error) :
  functionCallParts host tcs = Err e ->
  e = SyntaxError
  /\ exists id f,
      In (FunctionToolCall id f) tcs
      /\ JSON_parse host (string_or (fn_arguments f) "{}") = None.
Proof.
  induction tcs as [| [id f | id] rest IH]; cbn.
  - discriminate.
  - destruct (JSON_parse host (string_or (fn_arguments f) "{}")) eqn:Hparse.
    + destruct (functionCallParts host rest) as [more | e'] eqn:Hrest; cbn;
        [discriminate |].
      intros H. injection H as ->.
      destruct (IH eq_refl) as (-> & id' & f' & Hin & Hnone).
      split; [reflexivity |]. exists id', f'. split; [now right | exact Hnone].
    + intros H. injection H as <-. split; [reflexivity |].
      exists id, f. split; [now left | exact Hparse].
  - intros H. destruct (IH H) as (-> & id' & f' & Hin & Hnone).
    split; [reflexivity |]. exists id', f'. split; [now right | exact Hnone].
Qed.

(** X11: [generateContent] fails in three ways only: the client's failure,
    passed on as it is; a [TypeError] when the completion has no choice; a
    [SyntaxError] when a function tool call of the first choice carries
    arguments that [JSON.parse] rejects.  Building the request never
    fails. *)
Theorem generateContent_failures (host : Host) (this : OpenAIContentGenerator)
  (request : GenerateContentParameters) (k : nat) (e : error) :
  fst (generateContent host this request k) = Err e ->
  create (openai this) (fst (generateContent_params host this request k)) = Err e
  \/ exists completion,
      create (openai this) (fst (generateContent_params host this request k))
      = Ok completion
      /\ ((choices completion = [] /\ e = TypeError)
          \/ (e = SyntaxError
              /\ exists id f,
                  In (FunctionToolCall id f) (first_choice_calls completion)
                  /\ JSON_parse host (string_or (fn_arguments f) "{}") = None)).
Proof.
  unfold generateContent, rbind, ret.
  destruct (generateContent_params host this request k) as [params k'].
  cbn [fst].
  destruct (create (openai this) params) as [completion | e'] eqn:Hcreate;
    cbn [bind]; [| intros H; left; injection H as <-; reflexivity].
  intros H. right. exists completion. split; [reflexivity |].
  unfold convertToGeminiResponse, first_choice_calls in *.
  destruct (choices completion) as [| choice rest]; cbn [nth_error] in *.
  - injection H as <-. now left.
  - right. destruct (OpenAI.tool_calls (message choice)) as [tcs |];
      cbn [array_or]; [| discriminate].
    destruct (functionCallParts host tcs) as [callParts | e'] eqn:Hloop;
      cbn [bind] in H; [discriminate |].
    injection H as <-. now apply functionCallParts_error.
Qed.

(** X11 on a completion whose tool call has cut-short arguments. *)
Lemma generateContent_failures_witness :
  create (openai (Fixture.generator Fixture.cut_short))
    (fst (generateContent_params Fixture.host (Fixture.generator Fixture.cut_short)
            (Fixture.hello empty_config) 0))
  = Err SyntaxError
  \/ exists completion,
      create (openai (Fixture.generator Fixture.cut_short))
        (fst (generateContent_params Fixture.host
                (Fixture.generator Fixture.cut_short) (Fixture.hello empty_config) 0))
      = Ok completion
      /\ ((choices completion = [] /\ SyntaxError = TypeError)
          \/ (SyntaxError = SyntaxError
              /\ exists id f,
                  In (FunctionToolCall id f) (first_choice_calls completion)
                  /\ JSON_parse Fixture.host (string_or (fn_arguments f) "{}") = None)).
Proof.
  exact (generateContent_failures Fixture.host (Fixture.generator Fixture.cut_short)
           (Fixture.hello empty_config) 0 SyntaxError eq_refl).
Defined.

(** ** Further properties of the stream generator *)

Section Yielded.

Variable host : Host.

Lemma yielded_cons (chunk : ChatCompletionChunk) (rest : list ChatCompletionChunk) :
  yielded host (chunk :: rest)
  = match convertStreamChunkToGeminiResponse host chunk with
    | Ok response =>
        (response :: fst (yielded host rest), snd (yielded host rest))
    | Err e => ([], Some e)
    end.
Proof.
  cbn [yielded]. destruct (convertStreamChunkToGeminiResponse host chunk);
    [| reflexivity].
  now destruct (yielded host rest).
Qed.

Lemma yielded_append_ok (a b : list ChatCompletionChunk) :
  snd (yielded host a) = None ->
  yielded host (a ++ b)
  = ((fst (yielded host a) ++ fst (yielded host b))%list, snd (yielded host b)).
Proof.
  induction a as [| chunk a IH]; cbn [app].
  - intros _. cbn. now destruct (yielded host b).
  - rewrite !yielded_cons.
    destruct (convertStreamChunkToGeminiResponse host chunk); cbn [fst snd];
      [| discriminate].
    intros H. now rewrite (IH H).
Qed.

Lemma yielded_append_failed (a b : list ChatCompletionChunk) (e : error) :
  snd (yielded host a) = Some e -> yielded host (a ++ b) = yielded host a.
Proof.
  induction a as [| chunk a IH]; cbn [app].
  - discriminate.
  - rewrite !yielded_cons.
    destruct (convertStreamChunkToGeminiResponse host chunk); cbn [fst snd];
      [| reflexivity].
    intros H. now rewrite (IH H).
Qed.

Lemma yielded_length (a : list ChatCompletionChunk) :
  length (fst (yielded host a)) <= length a
  /\ (snd (yielded host a) = None <-> length (fst (yielded host a)) = length a).
Proof.
  induction a as [| chunk a [IHle IHiff]].
  - cbn. split; [lia | tauto].
  - rewrite yielded_cons.
    destruct (convertStreamChunkToGeminiResponse host chunk); cbn [fst snd length].
    + split; [lia |]. rewrite IHiff. split; lia.
    + split; [lia |]. split; [discriminate | lia].
Qed.

Lemma convertStreamChunk_text (s : string) :
  exists response,
    convertStreamChunkToGeminiResponse host (text_chunk s) = Ok response
    /\ response_text response = s
    /\ response_parts response = (if s =? "" then [] else [TextPart s]).
Proof.
  unfold convertStreamChunkToGeminiResponse, text_chunk, firstDelta.
  cbn [chunk_choices nth_error delta delta_tool_calls delta_content bind].
  eexists. split; [reflexivity |].
  cbn [response_text response_parts candidates Gemini.content Content parts_of
    array_or].
  rewrite app_nil_r. unfold textPartOf, string_truthy.
  destruct (s =? "") eqn:Hs; cbn.
  - apply String.eqb_eq in Hs. now subst s.
  - unfold string_truthy. rewrite Hs. now split.
Qed.

End Yielded.

(** X12: the stream generator translates chunk after chunk and stops at
    the first chunk that fails to convert.  Over a stream that goes on after
    some chunks, it yields what it yields for these chunks and then, when
    they all converted, what it yields for the rest by itself (no state is
    carried from chunk to chunk); when one of them failed, nothing of the
    rest is translated.  It yields at most one response per chunk, and as
    many as there are chunks exactly when it ends without failure. *)
Theorem yielded_stops_at_first_failure (host : Host)
  (a b : list ChatCompletionChunk) :
  (snd (yielded host a) = None ->
   yielded host (a ++ b)
   = ((fst (yielded host a) ++ fst (yielded host b))%list, snd (yielded host b)))
  /\ (forall e, snd (yielded host a) = Some e ->
                yielded host (a ++ b) = yielded host a)
  /\ length (fst (yielded host a)) <= length a
  /\ (snd (yielded host a) = None <-> length (fst (yielded host a)) = length a).
Proof.
  split; [apply yielded_append_ok |].
  split; [intros e; apply yielded_append_failed |].
  apply yielded_length.
Qed.

(** X12 on a stream whose second chunk carries a named call with cut-short
    arguments: the first chunk is translated, the third is not. *)
Lemma yielded_stops_at_first_failure_witness :
  map response_text
      (fst (yielded Fixture.host
              [text_chunk "Hi"; Samples.failing_chunk; text_chunk " there"]))
  = ["Hi"]
  /\ snd (yielded Fixture.host
            [text_chunk "Hi"; Samples.failing_chunk; text_chunk " there"])
     = Some SyntaxError.
Proof.
  pose proof (proj1 (proj2 (yielded_stops_at_first_failure Fixture.host
                              [text_chunk "Hi"; Samples.failing_chunk]
                              [text_chunk " there"]))
                SyntaxError eq_refl) as H.
  cbn [app] in H. rewrite H. split; reflexivity.
Defined.

(** X13: over a stream of text-only chunks the generator yields one
    response per chunk, each with the text of its own chunk and nothing of
    the chunks before it, and ends without failure; a chunk with empty text
    gives a response without parts. *)
Theorem text_stream_is_not_accumulated (host : Host) (texts : list string) :
  snd (yielded host (map text_chunk texts)) = None
  /\ map response_text (fst (yielded host (map text_chunk texts))) = texts
  /\ map response_parts (fst (yielded host (map text_chunk texts)))
     = map (fun s => if s =? "" then [] else [TextPart s]) texts.
Proof.
  induction texts as [| s texts (IHe & IHt & IHp)]; cbn [map].
  - repeat split.
  - rewrite yielded_cons.
    destruct (convertStreamChunk_text host s) as (response & -> & Ht & Hp).
    cbn [fst snd map]. rewrite IHt, IHp, Ht, Hp. repeat split. exact IHe.
Qed.




(** ** Properties of countTokens *)

Section Tokens.

Variable encode : string -> list nat.

Lemma countParts_sum (parts : list value) (n : nat) :
  countParts encode parts n
  = n + list_sum (map (fun t => length (encode t)) (flat_map counted_text parts)).
Proof.
  unfold countParts. revert n.
  induction parts as [| p parts IH]; intros n; cbn [fold_left flat_map].
  - cbn. lia.
  - rewrite IH, map_app, list_sum_app.
    destruct p as [s | r ps [t |] i fc fr]; cbn [partTokens counted_text].
    + cbn. lia.
    + unfold string_truthy. destruct (t =? ""); cbn; lia.
    + cbn. lia.
Qed.

Lemma countContents_sum (contents : list value) (n : nat) :
  countContents encode contents n
  = n + list_sum (map (fun t => length (encode t)) (counted_texts contents)).
Proof.
  unfold countContents, counted_texts. revert n.
  induction contents as [| c contents IH]; intros n; cbn [fold_left flat_map].
  - cbn. lia.
  - rewrite IH, map_app, list_sum_app.
    destruct (parts_of c) as [parts |]; cbn [array_or].
    + rewrite countParts_sum. lia.
    + cbn. lia.
Qed.

Lemma normalizeContents_turn_list (l : list value) :
  turn_list l -> normalizeContents (ContentArray l) = l.
Proof.
  unfold normalizeContents. intros [-> | ->]; [reflexivity |].
  now rewrite orb_true_r.
Qed.

Lemma turn_list_app (a b : list value) :
  turn_list a -> turn_list b -> turn_list (a ++ b).
Proof.
  intros [-> | Ha] Hb; [exact Hb |]. right.
  destruct a as [| x a]; [discriminate | exact Ha].
Qed.

End Tokens.

(** X14: the total [countTokens] returns is the sum, over the texts it
    finds, of the number of tokens [encode] makes of each; the texts are the
    bare strings and the non-empty [text] properties among the parts of the
    normalized contents, whatever the role of the turn they stand in.
    Function calls, function responses and inline data add nothing. *)
Theorem countTokens_sums_text (encode : string -> list nat)
  (request : CountTokensParameters) :
  totalTokens (countTokens encode request)
  = list_sum (map (fun t => length (encode t))
                  (counted_texts (normalizeContents (count_contents request)))).
Proof.
  unfold countTokens. cbn [totalTokens]. now rewrite countContents_sum.
Qed.

(** X15: counting is additive over lists of turns: the total for two
    histories put end to end is the sum of their totals. *)
Theorem countTokens_additive (encode : string -> list nat) (a b : list value) :
  turn_list a -> turn_list b ->
  totalTokens (countTokens encode {| count_contents := ContentArray (a ++ b) |})
  = totalTokens (countTokens encode {| count_contents := ContentArray a |})
    + totalTokens (countTokens encode {| count_contents := ContentArray b |}).
Proof.
  intros Ha Hb. unfold countTokens. cbn [totalTokens count_contents].
  rewrite (normalizeContents_turn_list _ (turn_list_app _ _ Ha Hb)).
  rewrite (normalizeContents_turn_list _ Ha), (normalizeContents_turn_list _ Hb).
  rewrite !countContents_sum. unfold counted_texts.
  rewrite flat_map_app, map_app, list_sum_app. lia.
Qed.

(** X15 on two one-turn histories, with one token per character. *)
Lemma countTokens_additive_witness :
  totalTokens
    (countTokens Samples.encode
       {| count_contents :=
            ContentArray [Content "user" [TextPart "abc"; Fixture.lookup_call];
                          Content "model" [TextPart ""; VString "de"]] |})
  = 3 + 2.
Proof.
  exact (eq_trans
           (countTokens_additive Samples.encode
              [Content "user" [TextPart "abc"; Fixture.lookup_call]]
              [Content "model" [TextPart ""; VString "de"]]
              (or_intror eq_refl) (or_intror eq_refl))
           eq_refl).
Defined.

(** ** Properties of extractTextFromContent and embedContent *)

Lemma join_cons2 (sep x y : string) (l : list string) :
  join sep (x :: y :: l) = x ++ sep ++ join sep (y :: l).
Proof. reflexivity. Qed.

Lemma string_append_assoc (a b c : string) : (a ++ b) ++ c = a ++ b ++ c.
Proof.
  induction a as [| x a IH]; cbn; [reflexivity | now rewrite IH].
Qed.

Lemma join_app (sep : string) (a b : list string) :
  a <> [] -> b <> [] -> join sep (a ++ b) = join sep a ++ sep ++ join sep b.
Proof.
  intros Ha Hb. induction a as [| x a IH]; [contradiction |].
  destruct a as [| y a].
  - destruct b as [| z b]; [contradiction | reflexivity].
  - cbn [app]. rewrite !join_cons2. cbn [app] in IH.
    rewrite IH by discriminate.
    now rewrite !string_append_assoc.
Qed.

Lemma append_truthy (x y : string) :
  string_truthy x = true -> string_truthy (x ++ y) = true.
Proof.
  destruct x; [discriminate | reflexivity].
Qed.

Lemma join_truthy (sep : string) (l : list string) :
  l <> [] -> Forall (fun s => string_truthy s = true) l ->
  string_truthy (join sep l) = true.
Proof.
  intros Hl Hall. destruct l as [| x l]; [contradiction |].
  inversion Hall as [| x' l' Hx _]; subst.
  destruct l as [| y l]; [exact Hx |].
  rewrite join_cons2. now apply append_truthy.
Qed.

Lemma join_empty (sep : string) (l : list string) :
  Forall (fun s => string_truthy s = true) l -> join sep l = "" -> l = [].
Proof.
  intros Hall Hj. destruct l as [| x l]; [reflexivity |].
  pose proof (join_truthy sep (x :: l) ltac:(discriminate) Hall) as Ht.
  rewrite Hj in Ht. discriminate.
Qed.

Lemma filter_truthy_all (l : list string) :
  Forall (fun s => string_truthy s = true) (filter string_truthy l).
Proof.
  apply Forall_forall. intros s Hin. now apply filter_In in Hin.
Qed.

(** Joining the non-empty joins of several lists is joining their
    concatenation. *)
Lemma join_joins (xss : list (list string)) :
  Forall (Forall (fun s => string_truthy s = true)) xss ->
  join " " (filter string_truthy (map (join " ") xss)) = join " " (concat xss).
Proof.
  induction 1 as [| xs xss Hxs Hxss IH]; cbn [map filter concat].
  - reflexivity.
  - assert (Hall : Forall (fun s => string_truthy s = true) (concat xss)).
    { apply Forall_concat. exact Hxss. }
    destruct xs as [| x xs].
    + cbn. exact IH.
    + rewrite (join_truthy " " (x :: xs) ltac:(discriminate) Hxs).
      destruct (filter string_truthy (map (join " ") xss)) as [| r rs] eqn:Hr.
      * assert (Hnone : join " " (concat xss) = "") by (symmetry; exact IH).
        apply (join_empty _ _ Hall) in Hnone.
        rewrite Hnone, app_nil_r. reflexivity.
      * assert (Hne : concat xss <> []).
        { intros Hnil. rewrite Hnil in IH.
          assert (Hrs : Forall (fun s => string_truthy s = true) (r :: rs)).
          { rewrite <- Hr. apply filter_truthy_all. }
          pose proof (join_truthy " " (r :: rs) ltac:(discriminate) Hrs) as Ht.
          rewrite IH in Ht. discriminate. }
        rewrite join_cons2, IH, join_app by (discriminate || exact Hne).
        reflexivity.
Qed.

Lemma filter_flat_map {A B : Type} (f : A -> list B) (p : B -> bool) (l : list A) :
  filter p (flat_map f l) = concat (map (fun x => filter p (f x)) l).
Proof.
  induction l as [| x l IH]; cbn; [reflexivity |].
  now rewrite filter_app, IH.
Qed.

(** The extracted text is the flat text. *)
Lemma extractTextFromContent_flat (v : value) :
  extractTextFromContent v = flat_text v.
Proof.
  unfold flat_text. induction v as [s | r t i fc fr | r parts t i fc fr IH]
    using value_nested_ind.
  - cbn. unfold string_truthy. destruct (s =? "") eqn:Hs; cbn; [| reflexivity].
    now apply String.eqb_eq in Hs.
  - destruct t as [t |]; cbn; [| reflexivity].
    unfold string_or, string_truthy. destruct (t =? "") eqn:Ht; reflexivity.
  - cbn [extractTextFromContent leaves].
    rewrite filter_flat_map.
    rewrite <- (join_joins (map (fun p => filter string_truthy (leaves p)) parts)).
    + rewrite map_map. f_equal. f_equal.
      apply map_ext_Forall. exact IH.
    + apply Forall_forall. intros xs Hin.
      apply in_map_iff in Hin as (p & <- & _). apply filter_truthy_all.
Qed.

(** X16: the text extracted for an embedding is the non-empty text leaves
    of the content joined by single spaces, however deeply they are nested
    through [parts] (a [text] beside [parts] is not read); it is the empty
    string exactly when every leaf is empty. *)
Theorem extractTextFromContent_flattens (v : value) :
  extractTextFromContent v = join " " (filter string_truthy (leaves v))
  /\ (extractTextFromContent v = "" <-> Forall (fun s => s = "") (leaves v)).
Proof.
  rewrite extractTextFromContent_flat. unfold flat_text.
  split; [reflexivity |]. split.
  - intros H. apply join_empty in H; [| apply filter_truthy_all].
    apply Forall_forall. intros s Hin.
    destruct (String.eqb_spec s "") as [-> | Hne]; [reflexivity |].
    assert (Hf : In s (filter string_truthy (leaves v))).
    { apply filter_In. split; [exact Hin |]. now apply string_truthy_true. }
    rewrite H in Hf. destruct Hf.
  - intros Hall.
    assert (Hnil : filter string_truthy (leaves v) = []).
    { induction Hall as [| s l -> _ IH]; cbn; [reflexivity | exact IH]. }
    now rewrite Hnil.
Qed.

(** X16 on a content nested two levels deep. *)
Lemma extractTextFromContent_flattens_witness :
  extractTextFromContent Samples.nested = "a b c".
Proof.
  exact (eq_trans (proj1 (extractTextFromContent_flattens Samples.nested)) eq_refl).
Defined.

Lemma extractTextFromArgument_text (argument : option ContentListUnion) :
  extractTextFromArgument argument
  = match argument with
    | Some c => Ok (text_of_union c)
    | None => Err TypeError
    end.
Proof.
  destruct argument as [[l | v] |]; cbn; try reflexivity.
  now rewrite extractTextFromContent_flat.
Qed.

Lemma embedArgument_text (request : EmbedContentParameters) :
  option_map text_of_union (embedArgument request) = embedded_text request.
Proof.
  unfold embedArgument, embedded_text.
  destruct (embed_contents request) as [[l | [s | r ps t i fc fr]] |];
    try reflexivity.
  cbn [union_truthy]. unfold string_truthy.
  destruct (String.eqb_spec s "") as [-> | Hne]; cbn [negb]; [reflexivity |].
  destruct s; [contradiction | reflexivity].
Qed.

(** X17: what [embedContent] does, in full.  It takes [contents], or
    [content] when [contents] is absent or the empty string; with neither it
    ends in a [TypeError] before the service is called.  Otherwise it calls
    the service once, with the embedding model and one input: the flat text
    of a single value, and the empty string for an array, whatever the array
    holds.  A failure of the service is passed on; an answer without data is
    a [TypeError]; of an answer with data the first vector alone is
    returned. *)
Theorem embedContent_outcome (this : OpenAIContentGenerator)
  (embeddings_create : EmbeddingCreateParams -> result CreateEmbeddingResponse)
  (request : EmbedContentParameters) :
  embedContent this embeddings_create request
  = match embedded_text request with
    | None => Err TypeError
    | Some text =>
        match embeddings_create
                {| embedding_model := embeddingModel this; embedding_input := text |}
        with
        | Err e => Err e
        | Ok response =>
            match embedding_data response with
            | [] => Err TypeError
            | first :: _ => Ok {| embeddings := [{| values := embedding first |}] |}
            end
        end
    end.
Proof.
  unfold embedContent. rewrite extractTextFromArgument_text.
  rewrite <- embedArgument_text.
  destruct (embedArgument request) as [c |]; cbn [option_map bind]; [| reflexivity].
  destruct (embeddings_create _) as [response | e]; cbn [bind]; [| reflexivity].
  destruct (embedding_data response); reflexivity.
Qed.

(** X17 on an array of two strings (the empty input is sent) and on a
    nested content. *)
Lemma embedContent_outcome_witness :
  embedContent (Fixture.generator Fixture.greeting) Samples.embeddings_create
    {| embed_contents := Some (ContentArray [VString "first"; VString "second"]);
       embed_content := None |}
  = Ok {| embeddings := [{| values := [0%float] |}] |}
  /\ embedContent (Fixture.generator Fixture.greeting) Samples.embeddings_create
       {| embed_contents := Some (ContentSingle (VString ""));
          embed_content := Some (ContentSingle Samples.nested) |}
     = Ok {| embeddings := [{| values := [1%float; 0.5%float] |}] |}.
Proof.
  split.
  - exact (eq_trans
             (embedContent_outcome (Fixture.generator Fixture.greeting)
                Samples.embeddings_create
                {| embed_contents :=
                     Some (ContentArray [VString "first"; VString "second"]);
                   embed_content := None |})
             eq_refl).
  - exact (eq_trans
             (embedContent_outcome (Fixture.generator Fixture.greeting)
                Samples.embeddings_create
                {| embed_contents := Some (ContentSingle (VString ""));
                   embed_content := Some (ContentSingle Samples.nested) |})
             eq_refl).
Defined.
